(** * Risk-metrics engine of the DeFi portfolio backend

    A shallow embedding of [backend/server.py]: the numeric-safety helpers
    [safe_float] and [clean_data_for_json], the risk calculator
    [calculate_portfolio_metrics], the response cache and the market-data
    fetch, and the endpoints and the monitoring pass built on them.

    Python floats and numpy [float64] values are IEEE-754 binary64 numbers;
    they are modelled by Rocq's primitive floats, whose operations are the
    correctly rounded binary64 ones.  Equality of two floats below is
    equality of their bit patterns up to the single NaN: [0.0] and [-0.0]
    are different values. *)

From Stdlib Require Import String.
From Stdlib Require Import Floats ZArith Bool Lia Arith List.
From Stdlib Require Uint63.
From ExtLib Require Import Structures.Monad Structures.MonadExc.
From ExtLib Require Import Data.Monads.EitherMonad.
Import ListNotations.
Import MonadNotation.

Set Warnings "-inexact-float,-register-all".
Local Open Scope float_scope.
Local Open Scope monad_scope.

(** ** Floats *)

Module Float.

(** [np.isnan], and [pd.isna] on a float. *)
Definition isnan (x : float) : bool := is_nan x.

(** [np.isinf]. *)
Definition isinf (x : float) : bool := is_infinity x.

(** Neither NaN nor an infinity. *)
Definition finite (x : float) : bool := negb (isnan x || isinf x).

(** The conversion of a Python [int] to a float (exact below [2^53]). *)
Definition of_nat (n : nat) : float :=
  of_uint63 (Uint63.of_Z (Z.of_nat n)).

End Float.

(** ** Numeric safety *)

(** [safe_float(value, default=0.0)]: NaN and the infinities become the
    default, any other float is returned as it is. *)
Definition safe_float (value default : float) : float :=
  if Float.isnan value || Float.isinf value then default else value.

(** The JSON-bound data [clean_data_for_json] walks: documents read from
    the store are dicts, lists and scalars.  A dict keeps its insertion
    order, so it is an association list. *)
Inductive pyval : Type :=
| PyNone
| PyBool (b : bool)
| PyInt (z : Z)
| PyStr (s : string)
| PyDatetime (t : Z)
| PyFloat (f : float)
| PyList (items : list pyval)
| PyDict (entries : list (string * pyval)).

(** [pd.isna] on a scalar. *)
Definition pd_isna (data : pyval) : bool :=
  match data with
  | PyNone => true
  | PyFloat f => Float.isnan f
  | _ => false
  end.

(** [clean_data_for_json(data)]. *)
Fixpoint clean_data_for_json (data : pyval) : pyval :=
  match data with
  | PyDict entries =>
      PyDict (map (fun kv => (fst kv, clean_data_for_json (snd kv))) entries)
  | PyList items => PyList (map clean_data_for_json items)
  | PyFloat f => PyFloat (safe_float f 0)
  | _ => if pd_isna data then PyNone else data
  end.

(** The scalars that are not floats. *)
Definition non_numeric_scalar (data : pyval) : bool :=
  match data with
  | PyNone | PyBool _ | PyInt _ | PyStr _ | PyDatetime _ => true
  | _ => false
  end.

(** Structural induction through the lists and dicts nested in a value. *)
Section PyvalInduction.
Variable P : pyval -> Prop.
Hypothesis HNone : P PyNone.
Hypothesis HBool : forall b, P (PyBool b).
Hypothesis HInt : forall z, P (PyInt z).
Hypothesis HStr : forall s, P (PyStr s).
Hypothesis HDatetime : forall t, P (PyDatetime t).
Hypothesis HFloat : forall f, P (PyFloat f).
Hypothesis HList : forall items, Forall P items -> P (PyList items).
Hypothesis HDict :
  forall entries, Forall (fun kv => P (snd kv)) entries -> P (PyDict entries).

Fixpoint pyval_nested_ind (data : pyval) : P data :=
  match data with
  | PyNone => HNone
  | PyBool b => HBool b
  | PyInt z => HInt z
  | PyStr s => HStr s
  | PyDatetime t => HDatetime t
  | PyFloat f => HFloat f
  | PyList items =>
      HList items
        ((fix go (l : list pyval) : Forall P l :=
            match l with
            | [] => Forall_nil _
            | x :: l' => Forall_cons _ (pyval_nested_ind x) (go l')
            end) items)
  | PyDict entries =>
      HDict entries
        ((fix go (l : list (string * pyval))
            : Forall (fun kv => P (snd kv)) l :=
            match l with
            | [] => Forall_nil _
            | kv :: l' => Forall_cons _ (pyval_nested_ind (snd kv)) (go l')
            end) entries)
  end.
End PyvalInduction.

(** ** numpy *)

Module np.

(** Left-to-right accumulation, the scalar loop of a reduction. *)
Fixpoint accumulate (acc : float) (a : list float) : float :=
  match a with
  | [] => acc
  | x :: a' => accumulate (acc + x) a'
  end.

(** The unrolled loop of the pairwise summation: eight accumulators, each
    taking every eighth element of the [chunks] blocks that follow. *)
Fixpoint unrolled (r a : list float) (chunks : nat) : list float * list float :=
  match chunks with
  | O => (r, a)
  | S k =>
      unrolled (map (fun xy => fst xy + snd xy) (combine r (firstn 8 a)))
        (skipn 8 a) k
  end.

(** numpy's pairwise summation of a [float64] array: a plain loop below 8
    elements, the unrolled loop up to 128, two halves above (the first
    half a multiple of 8 long).  [fuel] bounds the halvings. *)
Fixpoint pairwise_sum (fuel : nat) (a : list float) : float :=
  let n := length a in
  if (n <? 8)%nat then accumulate 0 a
  else if (n <=? 128)%nat then
    match unrolled (firstn 8 a) (skipn 8 a) (n / 8 - 1) with
    | ([r0; r1; r2; r3; r4; r5; r6; r7], rest) =>
        accumulate (((r0 + r1) + (r2 + r3)) + ((r4 + r5) + (r6 + r7))) rest
    | _ => accumulate 0 a
    end
  else
    match fuel with
    | O => accumulate 0 a
    | S fuel' =>
        let n2 := (n / 2 - (n / 2) mod 8)%nat in
        pairwise_sum fuel' (firstn n2 a) + pairwise_sum fuel' (skipn n2 a)
    end.

(** [np.sum] of a one-dimensional [float64] array: the reduction starts
    from the identity [0.0]. *)
Definition sum (a : list float) : float := 0 + pairwise_sum (length a) a.

(** [np.mean]: the sum divided by the number of elements. *)
Definition mean (a : list float) : float := sum a / Float.of_nat (length a).

(** [np.std] with its default [ddof=0]: the square root of the mean of
    the squared deviations from the mean; the divisor is the number of
    elements [n], not [n - 1]. *)
Definition std (a : list float) : float :=
  let arrmean := sum a / Float.of_nat (length a) in
  let x := map (fun v => v - arrmean) a in
  let x := map (fun d => d * d) x in
  sqrt (sum x / Float.of_nat (length a)).

(** Insertion into an ascending list. *)
Fixpoint insert (x : float) (l : list float) : list float :=
  match l with
  | [] => [x]
  | y :: l' => if x <=? y then x :: l else y :: insert x l'
  end.

(** The array in ascending order.  [np.percentile] only partitions the
    array around the two ranks it reads; the values at those ranks are
    those of the sorted array. *)
Definition sort (a : list float) : list float := fold_right insert [] a.

(** [floor] of a float known to lie in [[0, bound]]: the largest integer
    [k <= bound] with [k <= x]. *)
Fixpoint floor_upto (bound : nat) (x : float) : nat :=
  match bound with
  | O => O
  | S b => if Float.of_nat (S b) <=? x then S b else floor_upto b x
  end.

(** The linear interpolation of [np.percentile]: [a + (b - a) * t],
    computed from [b] when [t >= 0.5]. *)
Definition lerp (a b t : float) : float :=
  let diff_b_a := b - a in
  if 0.5 <=? t then b - diff_b_a * (1 - t) else a + diff_b_a * t.

(** [np.percentile(a, q)] with the default linear method, for an array of
    finite numbers and [0 <= q <= 100]: the virtual index [(n - 1) * q/100]
    falls between two order statistics, which are interpolated. *)
Definition percentile (a : list float) (q : float) : float :=
  let n := length a in
  let arr := sort a in
  let virtual_index := Float.of_nat (n - 1) * (q / 100) in
  if Float.of_nat (n - 1) <=? virtual_index then last arr nan
  else
    let previous_index := floor_upto (n - 1) virtual_index in
    let gamma := virtual_index - Float.of_nat previous_index in
    lerp (nth previous_index arr nan) (nth (S previous_index) arr nan) gamma.

End np.

(** ** pandas *)

Module pd.

(** A [Series]: values labelled by their row index. *)
Definition Series : Type := list (nat * float).

(** The values of a list under a [RangeIndex]. *)
Definition of_values (vs : list float) : Series :=
  combine (seq 0 (length vs)) vs.

Definition values (s : Series) : list float := map snd s.

(** Forward fill: a NaN takes the last value that is not NaN before it;
    leading NaNs stay. *)
Fixpoint ffill_from (prev : float) (vs : list float) : list float :=
  match vs with
  | [] => []
  | v :: vs' =>
      if Float.isnan v then prev :: ffill_from prev vs'
      else v :: ffill_from v vs'
  end.

Definition ffill (vs : list float) : list float := ffill_from nan vs.

(** [shift(1)]: every value moves one row down, the first row gets NaN. *)
Definition shift (vs : list float) : list float :=
  match vs with
  | [] => []
  | _ => nan :: removelast vs
  end.

(** [Series.pct_change()] on the values: [data / data.shift(1) - 1].
    pandas before 3.0 forward-fills the series first (its default
    [fill_method='pad']); pandas 3.0 does not. *)
Definition pct_change (fill_method_pad : bool) (vs : list float) : list float :=
  let data := if fill_method_pad then ffill vs else vs in
  map (fun ds => fst ds / snd ds - 1) (combine data (shift data)).

(** [Series.dropna()]: the rows whose value is NaN are removed; the other
    rows keep their labels. *)
Definition dropna (s : Series) : Series :=
  filter (fun iv => negb (Float.isnan (snd iv))) s.

(** The value a series holds at a label. *)
Definition lookup (i : nat) (s : Series) : option float :=
  option_map snd (find (fun iv => Nat.eqb (fst iv) i) s).

(** [df[col] = s] on a frame of [n] rows: the series is aligned on the
    frame's index and a row the series has no label for gets NaN. *)
Definition assign_column (n : nat) (s : Series) : list float :=
  map (fun i => match lookup i s with Some v => v | None => nan end) (seq 0 n).

(** [cumprod]. *)
Fixpoint cumprod_from (acc : float) (vs : list float) : list float :=
  match vs with
  | [] => []
  | v :: vs' => (acc * v) :: cumprod_from (acc * v) vs'
  end.

Definition cumprod (vs : list float) : list float :=
  match vs with
  | [] => []
  | v :: vs' => v :: cumprod_from v vs'
  end.

(** [expanding().max()].  pandas hands the window kernel a copy of the
    values in which every infinity has become NaN, and the kernel counts
    the values that are not NaN: at every row the result is the largest
    finite value seen so far (the latest one of equal values), and NaN
    while there is none. *)
Definition max_skipna (acc x : float) : float :=
  if Float.isnan x || Float.isinf x then acc
  else if Float.isnan acc then x
  else if acc <=? x then x else acc.

Fixpoint expanding_max_from (acc : float) (vs : list float) : list float :=
  match vs with
  | [] => []
  | v :: vs' => max_skipna acc v :: expanding_max_from (max_skipna acc v) vs'
  end.

Definition expanding_max (vs : list float) : list float :=
  expanding_max_from nan vs.

(** [Series.min()]: the smallest value that is not NaN, NaN if none. *)
Definition min_skipna (acc x : float) : float :=
  if Float.isnan x then acc
  else if Float.isnan acc then x
  else if x <? acc then x else acc.

Definition min (vs : list float) : float := fold_left min_skipna vs nan.

End pd.

(** ** Data model *)

(** The fields of [Portfolio] the calculator reads, and its identity. *)
Record Portfolio : Type := {
  id : string;
  user_id : string;
  wallet_address : string;
  total_value_usd : float
}.

(** [RiskMetrics].  Its own [id] and [timestamp] are drawn afresh at every
    construction and [correlation_matrix] stays at its default [{}]; the
    calculator sets none of them. *)
Record RiskMetrics : Type := {
  portfolio_id : string;
  value_at_risk : float;
  conditional_var : float;
  max_drawdown : float;
  sharpe_ratio : float;
  sortino_ratio : float;
  volatility : float;
  skewness : float;
  kurtosis : float
}.

(** One row of [historical_data]: [{"date": ..., "value": ...}]. *)
Record HistoryPoint : Type := {
  date : Z;
  value : float
}.

(** The exception the arithmetic of the calculator can raise: the division
    of two Python floats by zero. *)
Inductive exn : Type :=
| ZeroDivisionError.

(** [a / b] on Python floats. *)
Definition py_truediv (a b : float) : sum exn float :=
  if b =? 0 then raise ZeroDivisionError else ret (a / b).

(** The record all three early exits build. *)
Definition zero_metrics (portfolio : Portfolio) : RiskMetrics := {|
  portfolio_id := id portfolio;
  value_at_risk := 0;
  conditional_var := 0;
  max_drawdown := 0;
  sharpe_ratio := 0;
  sortino_ratio := 0;
  volatility := 0;
  skewness := 0;
  kurtosis := 0
|}.

(** ** The risk calculator *)

Section Calculator.

(** Whether [pct_change] forward-fills (pandas before 3.0) or not. *)
Variable fill_method_pad : bool.

(** The sample skewness and excess kurtosis pandas computes from at least
    3, respectively 4, observations. *)
Variable skew_estimator : list float -> float.
Variable kurt_estimator : list float -> float.

(** [Series.skew()]: NaN below 3 observations. *)
Definition skew (returns : list float) : float :=
  if (length returns <? 3)%nat then nan else skew_estimator returns.

(** [Series.kurtosis()]: NaN below 4 observations. *)
Definition kurt (returns : list float) : float :=
  if (length returns <? 4)%nat then nan else kurt_estimator returns.

(** The return series: lines 393-397 of the calculator. *)
Definition return_series (historical_data : list HistoryPoint) : list float :=
  let df_value := map value historical_data in
  let df_returns :=
    pd.assign_column (length historical_data)
      (pd.dropna (pd.of_values (pd.pct_change fill_method_pad df_value))) in
  let returns := df_returns in
  filter (fun r => negb (Float.isnan r || Float.isinf r)) returns.

(** The body of the [try] block. *)
Definition try_block (portfolio : Portfolio)
    (historical_data : list HistoryPoint) : sum exn RiskMetrics :=
  match historical_data with
  | [] => ret (zero_metrics portfolio)
  | _ =>
  let returns := return_series historical_data in
  if (length returns <? 2)%nat then ret (zero_metrics portfolio)
  else
  let volatility := safe_float (np.std returns * sqrt 252) 0 in
  let mean_return := safe_float (np.mean returns * 252) 0 in
  let var_95 :=
    safe_float (np.percentile returns 5 * total_value_usd portfolio) 0 in
  let percentile_5 := np.percentile returns 5 in
  let cvar_returns := filter (fun r => r <=? percentile_5) returns in
  let cvar_95 :=
    safe_float
      (if (0 <? length cvar_returns)%nat
       then np.mean cvar_returns * total_value_usd portfolio
       else 0) 0 in
  let cumulative_returns := pd.cumprod (map (fun r => 1 + r) returns) in
  let running_max := pd.expanding_max cumulative_returns in
  let drawdown :=
    map (fun cm => (fst cm - snd cm) / snd cm)
      (combine cumulative_returns running_max) in
  let max_drawdown := safe_float (pd.min drawdown) 0 in
  let risk_free_rate := 0.02 in
  sharpe <-
    (if 0 <? volatility
     then py_truediv (mean_return - risk_free_rate) volatility
     else ret 0) ;;
  let sharpe_ratio := safe_float sharpe 0 in
  let downside_returns := filter (fun r => r <? 0) returns in
  let downside_volatility :=
    safe_float
      (if (0 <? length downside_returns)%nat
       then np.std downside_returns * sqrt 252
       else 0) 0 in
  sortino <-
    (if 0 <? downside_volatility
     then py_truediv (mean_return - risk_free_rate) downside_volatility
     else ret 0) ;;
  let sortino_ratio := safe_float sortino 0 in
  let skewness := safe_float (skew returns) 0 in
  let kurtosis := safe_float (kurt returns) 0 in
  ret {|
    portfolio_id := id portfolio;
    value_at_risk := abs var_95;
    conditional_var := abs cvar_95;
    max_drawdown := abs max_drawdown;
    sharpe_ratio := sharpe_ratio;
    sortino_ratio := sortino_ratio;
    volatility := volatility;
    skewness := skewness;
    kurtosis := kurtosis
  |}
  end.

(** [calculate_portfolio_metrics(portfolio, historical_data)]: the [try]
    block, and the all-zero record of the handler on any exception. *)
Definition calculate_portfolio_metrics (portfolio : Portfolio)
    (historical_data : list HistoryPoint) : RiskMetrics :=
  match try_block portfolio historical_data with
  | inr metrics => metrics
  | inl _ => zero_metrics portfolio
  end.

End Calculator.

(** ** Derived definitions *)

(** The simple returns [r_i = v_i / v_{i-1} - 1] of consecutive
    valuations, in the order of the series; the first valuation has no
    predecessor and contributes none. *)
Fixpoint simple_returns (vs : list float) : list float :=
  match vs with
  | v_prev :: ((v :: _) as rest) => (v / v_prev - 1) :: simple_returns rest
  | _ => []
  end.

(** The guarded quotient of the Sharpe and Sortino ratios: the excess
    return over the deviation when the deviation is positive, [0]
    otherwise, through the normalizer. *)
Definition guarded_ratio (excess deviation : float) : float :=
  safe_float (if 0 <? deviation then excess / deviation else 0) 0.

(** The annualized mean return and the annualized deviation of a series,
    as the calculator normalizes them. *)
Definition annualized_mean (returns : list float) : float :=
  safe_float (np.mean returns * 252) 0.

Definition annualized_std (returns : list float) : float :=
  safe_float (np.std returns * sqrt 252) 0.

(** The returns at or below the 5th percentile of the series. *)
Definition tail_returns (returns : list float) : list float :=
  filter (fun r => r <=? np.percentile returns 5) returns.

(** The drawdown series of the wealth index [cumprod (1 + r)]. *)
Definition drawdowns (returns : list float) : list float :=
  let cumulative_returns := pd.cumprod (map (fun r => 1 + r) returns) in
  map (fun cm => (fst cm - snd cm) / snd cm)
    (combine cumulative_returns (pd.expanding_max cumulative_returns)).

(** The deviation of the negative returns, [0] when there is none. *)
Definition downside_deviation (returns : list float) : float :=
  let downside_returns := filter (fun r => r <? 0) returns in
  safe_float
    (if (0 <? length downside_returns)%nat
     then np.std downside_returns * sqrt 252
     else 0) 0.

(** Every metric field is exactly [0.0]. *)
Definition all_zero (m : RiskMetrics) : Prop :=
  value_at_risk m = 0 /\ conditional_var m = 0 /\ max_drawdown m = 0
  /\ sharpe_ratio m = 0 /\ sortino_ratio m = 0 /\ volatility m = 0
  /\ skewness m = 0 /\ kurtosis m = 0.

(** Every field is a finite float. *)
Definition all_finite (m : RiskMetrics) : bool :=
  Float.finite (value_at_risk m) && Float.finite (conditional_var m)
  && Float.finite (max_drawdown m) && Float.finite (sharpe_ratio m)
  && Float.finite (sortino_ratio m) && Float.finite (volatility m)
  && Float.finite (skewness m) && Float.finite (kurtosis m).

(** The record of the normal path, field by field. *)
Definition normal_metrics (sk ku : list float -> float)
    (portfolio : Portfolio) (returns : list float) : RiskMetrics := {|
  portfolio_id := id portfolio;
  value_at_risk :=
    abs (safe_float (np.percentile returns 5 * total_value_usd portfolio) 0);
  conditional_var :=
    abs (safe_float
           (if (0 <? length (tail_returns returns))%nat
            then np.mean (tail_returns returns) * total_value_usd portfolio
            else 0) 0);
  max_drawdown := abs (safe_float (pd.min (drawdowns returns)) 0);
  sharpe_ratio :=
    guarded_ratio (annualized_mean returns - 0.02) (annualized_std returns);
  sortino_ratio :=
    guarded_ratio (annualized_mean returns - 0.02) (downside_deviation returns);
  volatility := annualized_std returns;
  skewness := safe_float (skew sk returns) 0;
  kurtosis := safe_float (kurt ku returns) 0
|}.

(** The Sharpe and Sortino ratios the interface of the specification
    describes, [computeRiskMetrics(..., riskFreeRate = 0.02)]: the excess
    of the annualized mean return over a rate the caller supplies, per
    unit of deviation. *)
Definition sharpe_at_rate (riskFreeRate : float) (returns : list float)
    : float :=
  guarded_ratio (annualized_mean returns - riskFreeRate)
    (annualized_std returns).

Definition sortino_at_rate (riskFreeRate : float) (returns : list float)
    : float :=
  guarded_ratio (annualized_mean returns - riskFreeRate)
    (downside_deviation returns).

(** The sample standard deviation, with Bessel's divisor [n - 1]. *)
Definition sample_std (a : list float) : float :=
  sqrt (np.sum (map (fun v => (v - np.mean a) * (v - np.mean a)) a)
        / Float.of_nat (length a - 1)).

(** The floats held anywhere in a value, in the order they are met. *)
Fixpoint floats (data : pyval) : list float :=
  match data with
  | PyFloat f => [f]
  | PyList items => flat_map floats items
  | PyDict entries => flat_map (fun kv => floats (snd kv)) entries
  | _ => []
  end.

(** ** Inputs of the examples *)

(** A valuation history with the given values, one row a day. *)
Definition history_of (vs : list float) : list HistoryPoint :=
  map (fun iv => {| date := Z.of_nat (fst iv); value := snd iv |})
    (combine (seq 0 (length vs)) vs).

Definition portfolio_worth (total : float) : Portfolio := {|
  id := "portfolio-1";
  user_id := "user-1";
  wallet_address := "0xabc";
  total_value_usd := total
|}.

(** A stand-in for the estimators of skewness and kurtosis where their
    value plays no part. *)
Definition unspecified_estimator (_ : list float) : float := nan.

(** The valuations of the end-to-end scenario. *)
Definition scenario : list HistoryPoint :=
  history_of [1000; 1020; 998; 1050; 1010].

(** Valuations growing by 70 percent a day: three equal returns. *)
Definition steady_growth : list HistoryPoint :=
  history_of [1000; 1700; 2890; 4913].

(** Valuations passing through zero: of the five returns, two are
    infinite and one is NaN. *)
Definition zero_crossings : list HistoryPoint :=
  history_of [100; 0; 50; 0; 0; 3].

(** The valuations [100, 0, 50]: one finite return. *)
Definition one_crossing : list HistoryPoint := history_of [100; 0; 50].

(** Valuations tripling twice: two returns of 200 percent. *)
Definition tripling : list HistoryPoint := history_of [1; 3; 9].

(** Three valuations of which the middle one is missing. *)
Definition missing_valuation : list HistoryPoint := history_of [1; nan; 2].

(** ** The response cache *)

Section Cache.

(** What is cached: the JSON of an upstream response, a list of
    holdings, a sentiment summary. *)
Variable V : Type.

(** [cache_store]: a dict from a key to the pair of the data and the time
    it expires at.  The entries are kept in insertion order. *)
Definition cache_store : Type := list (string * (V * float)).

(** [cache_store[key]], if the key is in the dict. *)
Fixpoint dict_get (key : string) (store : cache_store) : option (V * float) :=
  match store with
  | [] => None
  | (k, entry) :: store' =>
      if String.eqb k key then Some entry else dict_get key store'
  end.

(** [cache_store[key] = entry]: the entry of a key already there is
    replaced where it stands, a new key goes to the end. *)
Fixpoint dict_set (key : string) (entry : V * float) (store : cache_store)
    : cache_store :=
  match store with
  | [] => [(key, entry)]
  | (k, e) :: store' =>
      if String.eqb k key then (k, entry) :: store'
      else (k, e) :: dict_set key entry store'
  end.

(** [del cache_store[key]]. *)
Definition dict_del (key : string) (store : cache_store) : cache_store :=
  filter (fun ke => negb (String.eqb (fst ke) key)) store.

(** [cache_get(key)] when the clock reads [now]: the data of an entry
    that has not expired; an expired entry is deleted and [None]
    returned, as for a key that is not there. *)
Definition cache_get (now : float) (key : string) (store : cache_store)
    : option V * cache_store :=
  match dict_get key store with
  | Some (data, expiry) =>
      if now <? expiry then (Some data, store)
      else (None, dict_del key store)
  | None => (None, store)
  end.

(** [cache_set(key, value, expire)] when the clock reads [now].  The
    callers pass 60, 300 and 1800 seconds. *)
Definition cache_set (now : float) (key : string) (value : V) (expire : nat)
    (store : cache_store) : cache_store :=
  dict_set key (value, now + Float.of_nat expire) store.

(** Python's truth value of a cached datum, as [if cached_data:] takes
    it. *)
Variable truthy : V -> bool.

(** [fetch_coinmarketcap_data(symbols)].  [response] is what the HTTP
    client comes back with: [None] when the request or the decoding of
    its body raises, the status code and the decoded body otherwise.  The
    clock is read once by [cache_get] and once by [cache_set]. *)
Definition fetch_coinmarketcap_data (now_get now_set : float)
    (response : option (nat * V)) (symbols : list string)
    (store : cache_store) : option V * cache_store :=
  let cache_key := ("cmc_data_" ++ String.concat "," symbols)%string in
  let '(cached_data, store) := cache_get now_get cache_key store in
  if match cached_data with Some data => truthy data | None => false end
  then (cached_data, store)
  else
    match response with
    | Some (status_code, data) =>
        if (status_code =? 200)%nat
        then (Some data, cache_set now_set cache_key data 60 store)
        else (None, store)
    | None => (None, store)
    end.

End Cache.

Arguments dict_get {V} key store.
Arguments dict_set {V} key entry store.
Arguments dict_del {V} key store.
Arguments cache_get {V} now key store.
Arguments cache_set {V} now key value expire store.
Arguments fetch_coinmarketcap_data {V} truthy now_get now_set response
  symbols store.

(** ** Portfolio creation *)

(** One holding of a wallet, as [fetch_wallet_balance] lists it. *)
Module Holding.
Record t : Type := {
  symbol : string;
  balance : float;
  address : string
}.
End Holding.

(** [TokenBalance], without the [id] and [timestamp] drawn at its
    construction. *)
Module TokenBalance.
Record t : Type := {
  symbol : string;
  name : string;
  balance : float;
  value_usd : float;
  price_usd : float;
  change_24h : float;
  wallet_address : string
}.
End TokenBalance.

(** The whole [Portfolio] model: the fields the calculator reads, the
    tokens and the risk score.  [sharpe_ratio], [volatility] and
    [diversification_score] stay at their default [0.0]. *)
Record StoredPortfolio : Type := {
  portfolio : Portfolio;
  tokens : list TokenBalance.t;
  risk_score : float
}.

(** What an endpoint can raise: the [AttributeError] of a [get] on what
    is no dict, the [TypeError] of an arithmetic operation on what is no
    number, the [OverflowError] of an [int] too large for a float and of a
    date out of range, the [ValidationError] of a pydantic model, the
    [TypeError] or [ValueError] of numpy and [float] on what is no number,
    an exception of the store, an HTTP error. *)
Inductive error : Type :=
| AttributeError
| TypeError
| OverflowError
| ValidationError
| NotANumber
| StorageError
| HTTPException (status_code : nat).

(** [d.get(key)] on a dict with string keys. *)
Fixpoint assoc {A : Type} (key : string) (d : list (string * A)) : option A :=
  match d with
  | [] => None
  | (k, v) :: d' => if String.eqb k key then Some v else assoc key d'
  end.

(** [d.get(key, default)]: only a dict has it. *)
Definition py_get (d : pyval) (key : string) (default : pyval)
    : sum error pyval :=
  match d with
  | PyDict entries =>
      ret (match assoc key entries with Some v => v | None => default end)
  | _ => raise AttributeError
  end.

(** [float(z)] for a Python [int]: the nearest float, ties to even. *)
Definition float_of_int (z : Z) : float :=
  SF2Prim (binary_normalize prec emax z 0 false).

(** [x * y] for a float [x] and a value [y] of any type.  An [int] is
    converted to a float first, which raises when it is too large for
    one; a [bool] is an [int]; nothing else multiplies a float. *)
Definition py_float_mul (x : float) (y : pyval) : sum error float :=
  match y with
  | PyFloat f => ret (x * f)
  | PyInt z =>
      if Float.isinf (float_of_int z) then raise OverflowError
      else ret (x * float_of_int z)
  | PyBool b => ret (x * (if b then 1 else 0))
  | PyNone | PyStr _ | PyDatetime _ | PyList _ | PyDict _ => raise TypeError
  end.

(** The symbols the market data is asked for: those held with a positive
    balance, and ["BTC"] when there is none. *)
Definition requested_symbols (token_balances : list Holding.t) : list string :=
  let symbols :=
    map Holding.symbol
      (filter (fun token => 0 <? Holding.balance token) token_balances) in
  match symbols with
  | [] => ["BTC"%string]
  | _ => symbols
  end.

(** Python's [sum] of floats: from [0], left to right. *)
Definition py_sum (l : list float) : float := fold_left add l 0.

(** [max(0, x)] and [min(100, x)]: the first argument stays unless the
    second is greater, respectively less. *)
Definition py_max0 (x : float) : float := if 0 <? x then x else 0.

Definition py_min100 (x : float) : float := if x <? 100 then x else 100.

(** The basic risk score of a list of tokens. *)
Definition basic_risk_score (portfolio_tokens : list TokenBalance.t)
    : float :=
  match portfolio_tokens with
  | [] => 50
  | _ =>
      py_min100
        (py_max0
           (50 + py_sum (map (fun token => abs (TokenBalance.change_24h token))
                          portfolio_tokens)
                 / Float.of_nat (length portfolio_tokens)))
  end.

Section Creation.

(** What pydantic makes of a value that is not of the type of the field
    it is given for: whether a number passes for a string, or a [bool] or
    text that reads as a number for a float, depends on pydantic's
    version. *)
Variable coerce_str : pyval -> sum error string.
Variable coerce_float : pyval -> sum error float.

(** A [str] field and a [float] field of a model: a value of the type of
    the field is taken as it is. *)
Definition str_field (v : pyval) : sum error string :=
  match v with
  | PyStr s => ret s
  | _ => coerce_str v
  end.

Definition float_field (v : pyval) : sum error float :=
  match v with
  | PyFloat f => ret f
  | _ => coerce_float v
  end.

(** The body of the loop over the holdings, up to the [TokenBalance] it
    appends.  The market data is the JSON of the response as
    [response.json()] decoded it, or [None] when the fetch failed; a [get]
    needs a dict and falls back on its default when the key is missing;
    the price is whatever is stored under its key. *)
Definition token_of (market_data : pyval) (wallet : string)
    (token : Holding.t) : sum error TokenBalance.t :=
  let symbol := Holding.symbol token in
  let balance := Holding.balance token in
  data <- py_get market_data "data" (PyDict []) ;;
  price_data <- py_get data symbol (PyDict []) ;;
  quotes <- py_get price_data "quote" (PyDict []) ;;
  quote <- py_get quotes "USD" (PyDict []) ;;
  price <- py_get quote "price" (PyFloat 0) ;;
  change_24h <- py_get quote "percent_change_24h" (PyFloat 0) ;;
  value_usd <- py_float_mul balance price ;;
  name <- py_get price_data "name" (PyStr symbol) ;;
  name <- str_field name ;;
  price_usd <- float_field price ;;
  change_24h <- float_field change_24h ;;
  ret {|
    TokenBalance.symbol := symbol;
    TokenBalance.name := name;
    TokenBalance.balance := balance;
    TokenBalance.value_usd := value_usd;
    TokenBalance.price_usd := price_usd;
    TokenBalance.change_24h := change_24h;
    TokenBalance.wallet_address := wallet
  |}.

(** The loop: the tokens are appended in the order of the holdings and
    their values added up. *)
Fixpoint value_tokens (market_data : pyval) (wallet : string)
    (token_balances : list Holding.t)
    (portfolio_tokens : list TokenBalance.t) (total_value : float)
    : sum error (list TokenBalance.t * float) :=
  match token_balances with
  | [] => ret (portfolio_tokens, total_value)
  | token :: rest =>
      t <- token_of market_data wallet token ;;
      value_tokens market_data wallet rest (portfolio_tokens ++ [t])
        (total_value + TokenBalance.value_usd t)
  end.

(** [create_portfolio(request)].  [token_balances] is what
    [fetch_wallet_balance] returned, [fetch_market] what
    [fetch_coinmarketcap_data] returns for the symbols it is asked
    (nothing is Python's [None]), [new_id] the identifier drawn for the
    portfolio and [insert_error] the exception of [insert_one], if it
    raises one. *)
Definition create_portfolio (new_id user wallet : string)
    (token_balances : list Holding.t)
    (fetch_market : list string -> option pyval)
    (insert_error : option error) : sum error StoredPortfolio :=
  catch
    (let symbols := requested_symbols token_balances in
     let market_data :=
       match fetch_market symbols with
       | Some data => data
       | None => PyNone
       end in
     '(portfolio_tokens, total_value) <-
        value_tokens market_data wallet token_balances [] 0 ;;
     let risk_score := basic_risk_score portfolio_tokens in
     let portfolio := {|
       portfolio := {|
         id := new_id;
         user_id := user;
         wallet_address := wallet;
         total_value_usd := total_value
       |};
       tokens := portfolio_tokens;
       risk_score := risk_score
     |} in
     match insert_error with
     | Some e => raise e
     | None => ret portfolio
     end)
    (fun _ => raise (HTTPException 500)).

End Creation.

(** ** Risk analysis of a stored portfolio *)

Module datetime.

(** [date.toordinal()] counts the days from 1 January of year 1, which is
    day 1.  Day 719163 is 1 January 1970, the epoch of the system clock;
    day 3652059 is 31 December 9999, the last day a [datetime] holds. *)
Definition EPOCH : Z := 719163.
Definition MAXORDINAL : Z := 3652059.

(** What [datetime.now()] returns, by the day it falls on.  The system
    clock does not read before its epoch, and a [datetime] does not go
    beyond year 9999. *)
Record t : Type := {
  toordinal : Z;
  in_range : ((EPOCH <=? toordinal) && (toordinal <=? MAXORDINAL))%Z = true
}.

(** [now - timedelta(days=days)], by the day it falls on.  A [timedelta]
    holds at most 999999999 days, and the difference has to be a day of
    the years 1 to 9999: both raise [OverflowError] otherwise. *)
Definition minus_days (now : t) (days : Z) : sum error Z :=
  if (999999999 <? Z.abs days)%Z then raise OverflowError
  else
    let ordinal := (toordinal now - days)%Z in
    if ((1 <=? ordinal) && (ordinal <=? MAXORDINAL))%Z then ret ordinal
    else raise OverflowError.

End datetime.

(** The simulated history, rows [i] to [i + n - 1] of the loop: each
    value is the one before it times one plus the day's draw, starting
    from the total value of the portfolio; its date lies [i] days before
    the day the clock reads.  [draw i] is the number [np.random.normal]
    returns in row [i] and [now i] what [datetime.now()] does. *)
Fixpoint simulate_history (now : nat -> datetime.t) (draw : nat -> float)
    (base_value : float) (i n : nat) : sum error (list HistoryPoint) :=
  match n with
  | O => ret []
  | S n' =>
      let daily_change := draw i in
      let value := base_value * (1 + daily_change) in
      date <- datetime.minus_days (now i) (Z.of_nat i) ;;
      historical_data <- simulate_history now draw value (S i) n' ;;
      ret ({| date := date; value := value |} :: historical_data)
  end.

(** [get_portfolio(portfolio_id)].  [found] is what [find_one] returns,
    or the exception it raises; a document is a non-empty dict, so it is
    true. *)
Definition get_portfolio {D : Type} (found : sum error (option D))
    : sum error D :=
  catch
    (portfolio <- found ;;
     match portfolio with
     | None => raise (HTTPException 404)
     | Some portfolio => ret portfolio
     end)
    (fun _ => raise (HTTPException 500)).

Section RiskAnalysis.

Variable fill_method_pad : bool.
Variable skew_estimator kurt_estimator : list float -> float.

(** [analyze_portfolio_risk(portfolio_id, request)]. *)
Definition analyze_portfolio_risk
    (found : sum error (option StoredPortfolio)) (time_period : Z)
    (now : nat -> datetime.t) (draw : nat -> float)
    (insert_error : option error) : sum error RiskMetrics :=
  catch
    (portfolio_data <- found ;;
     match portfolio_data with
     | None => raise (HTTPException 404)
     | Some portfolio_data =>
         let portfolio := portfolio portfolio_data in
         historical_data <-
           simulate_history now draw (total_value_usd portfolio) 0
             (Z.to_nat time_period) ;;
         let risk_metrics :=
           calculate_portfolio_metrics fill_method_pad skew_estimator
             kurt_estimator portfolio historical_data in
         match insert_error with
         | Some e => raise e
         | None => ret risk_metrics
         end
     end)
    (fun _ => raise (HTTPException 500)).

End RiskAnalysis.

(** ** The dashboard *)

(** The documents the five queries of the dashboard return. *)
Module Queries.
Record t : Type := {
  portfolios : list pyval;
  risk_metrics : list pyval;
  sentiment_data : list pyval;
  yield_opportunities : list pyval;
  alerts : list pyval
}.
End Queries.

(** The dict the dashboard returns. *)
Module Summary.
Record t : Type := {
  total_portfolio_value : float;
  portfolio_count : nat;
  avg_risk_score : float;
  total_alerts : nat
}.
End Summary.

Module Dashboard.
Record t : Type := {
  portfolios : pyval;
  risk_metrics : pyval;
  sentiment_data : pyval;
  yield_opportunities : pyval;
  alerts : pyval;
  summary : Summary.t
}.
End Dashboard.

Section Dashboard.

(** What [safe_float] makes of a list: pandas and numpy test it element
    by element, and the outcome depends on the truth value numpy gives
    the array of the results. *)
Variable safe_float_of_list : list pyval -> float -> sum error float.

(** [safe_float(value, default)] on a value that need not be a float, as
    the dashboard calls it on the fields of a stored document.  [None] is
    missing for [pd.isna]; an [int] that fits 64 bits and a [bool] are
    numbers that are not infinite and [float] converts them; on text, a
    date, a dict and an [int] beyond 64 bits [np.isinf] raises. *)
Definition safe_float_any (value : pyval) (default : float)
    : sum error float :=
  match value with
  | PyNone => ret default
  | PyFloat f => ret (safe_float f default)
  | PyBool b => ret (if b then 1 else 0)
  | PyInt z =>
      if ((- 2 ^ 63 <=? z) && (z <? 2 ^ 64))%Z then ret (float_of_int z)
      else raise NotANumber
  | PyList items => safe_float_of_list items default
  | PyStr _ | PyDatetime _ | PyDict _ => raise NotANumber
  end.

(** The loop over the portfolios: both totals grow by the normalized
    field of each document. *)
Fixpoint sum_portfolios (portfolios : list pyval)
    (total_portfolio_value total_risk_score : float)
    : sum error (float * float) :=
  match portfolios with
  | [] => ret (total_portfolio_value, total_risk_score)
  | portfolio :: rest =>
      value <- py_get portfolio "total_value_usd" (PyInt 0) ;;
      value <- safe_float_any value 0 ;;
      risk <- py_get portfolio "risk_score" (PyInt 0) ;;
      risk <- safe_float_any risk 0 ;;
      sum_portfolios rest (total_portfolio_value + value)
        (total_risk_score + risk)
  end.

(** [get_dashboard_data(user_id)].  [found] is what the five queries
    return, or the exception one of them raises. *)
Definition get_dashboard_data (found : sum error Queries.t)
    : sum error Dashboard.t :=
  catch
    (q <- found ;;
     '(total_portfolio_value, total_risk_score) <-
        sum_portfolios (Queries.portfolios q) 0 0 ;;
     let avg_risk_score :=
       safe_float
         (match Queries.portfolios q with
          | [] => 0
          | _ =>
              total_risk_score
              / Float.of_nat (length (Queries.portfolios q))
          end) 0 in
     ret {|
       Dashboard.portfolios :=
         clean_data_for_json (PyList (Queries.portfolios q));
       Dashboard.risk_metrics :=
         clean_data_for_json (PyList (Queries.risk_metrics q));
       Dashboard.sentiment_data :=
         clean_data_for_json (PyList (Queries.sentiment_data q));
       Dashboard.yield_opportunities :=
         clean_data_for_json (PyList (Queries.yield_opportunities q));
       Dashboard.alerts :=
         clean_data_for_json (PyList (Queries.alerts q));
       Dashboard.summary := {|
         Summary.total_portfolio_value := total_portfolio_value;
         Summary.portfolio_count := length (Queries.portfolios q);
         Summary.avg_risk_score := avg_risk_score;
         Summary.total_alerts := length (Queries.alerts q)
       |}
     |})
    (fun _ => raise (HTTPException 500)).

End Dashboard.



(** ** The monitoring pass *)

(** [AlertModel], without the [id] and [triggered_at] drawn at its
    construction. *)
Module Alert.
Record t : Type := {
  user_id : string;
  alert_type : string;
  message : string;
  severity : string;
  resolved : bool
}.
End Alert.

Section Monitor.

(** The score as the format [.1f] prints it. *)
Variable format_1f : float -> string.

(** The alert of a portfolio at high risk. *)
Definition high_risk_alert (stored : StoredPortfolio) : Alert.t := {|
  Alert.user_id := user_id (portfolio stored);
  Alert.alert_type := "HIGH_RISK";
  Alert.message :=
    ("Portfolio risk score is " ++ format_1f (risk_score stored)
     ++ ". Consider rebalancing.")%string;
  Alert.severity := "high";
  Alert.resolved := false
|}.

(** One pass of [monitor_portfolios] over the stored documents.  A
    document is [inl] when the [Portfolio] model rejects it;
    [insert_error] tells the inserts that raise.  An exception ends the
    work on its document only.  The result is the alerts collection after
    the pass. *)
Fixpoint monitor_pass (portfolios : list (sum error StoredPortfolio))
    (insert_error : Alert.t -> bool) (alerts : list Alert.t)
    : list Alert.t :=
  match portfolios with
  | [] => alerts
  | portfolio_data :: rest =>
      match portfolio_data with
      | inr portfolio =>
          if 80 <? risk_score portfolio
          then
            if insert_error (high_risk_alert portfolio)
            then monitor_pass rest insert_error alerts
            else monitor_pass rest insert_error
                   (alerts ++ [high_risk_alert portfolio])
          else monitor_pass rest insert_error alerts
      | inl _ => monitor_pass rest insert_error alerts
      end
  end.

End Monitor.

(** What one document adds to the two totals of the dashboard. *)
Definition document_numbers
    (safe_float_of_list : list pyval -> float -> sum error float)
    (portfolio : pyval) : sum error (float * float) :=
  value <- py_get portfolio "total_value_usd" (PyInt 0) ;;
  value <- safe_float_any safe_float_of_list value 0 ;;
  risk <- py_get portfolio "risk_score" (PyInt 0) ;;
  risk <- safe_float_any safe_float_of_list risk 0 ;;
  ret (value, risk).

(** Text, a date or a dict: what [safe_float] raises on. *)
Definition not_a_number (value : pyval) : bool :=
  match value with
  | PyStr _ | PyDatetime _ | PyDict _ => true
  | _ => false
  end.

(** The documents the [Portfolio] model accepts, in their order. *)
Definition valid_documents (portfolios : list (sum error StoredPortfolio))
    : list StoredPortfolio :=
  flat_map
    (fun portfolio_data =>
       match portfolio_data with
       | inr stored => [stored]
       | inl _ => []
       end)
    portfolios.

(** The alerts a pass adds: one for every valid document whose risk
    score is above 80 and whose insert does not raise. *)
Definition new_alerts (format_1f : float -> string)
    (portfolios : list (sum error StoredPortfolio))
    (insert_error : Alert.t -> bool) : list Alert.t :=
  flat_map
    (fun portfolio_data =>
       match portfolio_data with
       | inr stored =>
           if (80 <? risk_score stored)
              && negb (insert_error (high_risk_alert format_1f stored))
           then [high_risk_alert format_1f stored]
           else []
       | inl _ => []
       end)
    portfolios.

(** ** What the market data quotes *)

(** The dict under a key that may be missing: [{}] when it is, nothing
    when what is there is no dict. *)
Definition dict_at (key : string) (entries : list (string * pyval))
    : option (list (string * pyval)) :=
  match assoc key entries with
  | None => Some []
  | Some (PyDict d) => Some d
  | Some _ => None
  end.

(** The float, and the string, under a key that may be missing. *)
Definition float_at (key : string) (default : float)
    (entries : list (string * pyval)) : option float :=
  match assoc key entries with
  | None => Some default
  | Some (PyFloat f) => Some f
  | Some _ => None
  end.

Definition str_at (key : string) (default : string)
    (entries : list (string * pyval)) : option string :=
  match assoc key entries with
  | None => Some default
  | Some (PyStr s) => Some s
  | Some _ => None
  end.

(** The name, the price and the 24-hour change the market data quotes
    for a symbol, when the data has the shape the API documents
    ([data[symbol].name] a string, [data[symbol].quote.USD.price] and
    [.percent_change_24h] floats) or lacks keys of it: a missing name is
    the symbol, a missing number is [0.0]. *)
Definition quotation (market_data : pyval) (symbol : string)
    : option (string * float * float) :=
  match market_data with
  | PyDict top =>
      match dict_at "data" top with
      | Some data =>
          match dict_at symbol data with
          | Some coin =>
              match str_at "name" symbol coin, dict_at "quote" coin with
              | Some name, Some quotes =>
                  match dict_at "USD" quotes with
                  | Some usd =>
                      match float_at "price" 0 usd,
                            float_at "percent_change_24h" 0 usd with
                      | Some price, Some change => Some (name, price, change)
                      | _, _ => None
                      end
                  | None => None
                  end
              | _, _ => None
              end
          | None => None
          end
      | None => None
      end
  | _ => None
  end.

Definition quoted (market_data : pyval) (symbol : string) : bool :=
  match quotation market_data symbol with
  | Some _ => true
  | None => false
  end.

(** Market data of that shape that has no entry for a symbol. *)
Definition unlisted (market_data : pyval) (symbol : string) : bool :=
  match market_data with
  | PyDict top =>
      match dict_at "data" top with
      | Some data =>
          match assoc symbol data with
          | None => true
          | Some _ => false
          end
      | None => false
      end
  | _ => false
  end.

(** The token of a holding at the name, price and change quoted for its
    symbol. *)
Definition quoted_token (market_data : pyval) (wallet : string)
    (token : Holding.t) : TokenBalance.t :=
  let q :=
    match quotation market_data (Holding.symbol token) with
    | Some q => q
    | None => (Holding.symbol token, 0, 0)
    end in
  {|
    TokenBalance.symbol := Holding.symbol token;
    TokenBalance.name := fst (fst q);
    TokenBalance.balance := Holding.balance token;
    TokenBalance.value_usd := Holding.balance token * snd (fst q);
    TokenBalance.price_usd := snd (fst q);
    TokenBalance.change_24h := snd q;
    TokenBalance.wallet_address := wallet
  |}.

(** What cannot be a factor of a float: [None], text, a date, a list, a
    dict. *)
Definition not_a_factor (v : pyval) : bool :=
  match v with
  | PyNone | PyStr _ | PyDatetime _ | PyList _ | PyDict _ => true
  | PyBool _ | PyInt _ | PyFloat _ => false
  end.

(** The value the market data holds as the price of a symbol, whatever
    its type, when the dicts on the way to it are there. *)
Definition stored_price (market_data : pyval) (symbol : string)
    : option pyval :=
  match market_data with
  | PyDict top =>
      match assoc "data" top with
      | Some (PyDict data) =>
          match assoc symbol data with
          | Some (PyDict coin) =>
              match assoc "quote" coin with
              | Some (PyDict quotes) =>
                  match assoc "USD" quotes with
                  | Some (PyDict usd) => assoc "price" usd
                  | _ => None
                  end
              | _ => None
              end
          | _ => None
          end
      | _ => None
      end
  | _ => None
  end.

(** ** Inputs of the endpoint examples *)

(** The holdings [fetch_wallet_balance] falls back on. *)
Definition demo_holdings : list Holding.t := [
  {| Holding.symbol := "ETH"; Holding.balance := 2.5;
     Holding.address := "0x0000000000000000000000000000000000000000" |};
  {| Holding.symbol := "USDC"; Holding.balance := 1500;
     Holding.address := "0xA0b86a33E6417EBE12C877D67D7F6baA2F9b8CF7" |};
  {| Holding.symbol := "LINK"; Holding.balance := 75;
     Holding.address := "0x514910771AF9Ca656af840dff83E8264EcF986CA" |};
  {| Holding.symbol := "UNI"; Holding.balance := 40;
     Holding.address := "0x1f9840a85d5aF5bf1D1762F925BDADdC4201F984" |};
  {| Holding.symbol := "WBTC"; Holding.balance := 0.15;
     Holding.address := "0x2260FAC5E5542a773Aa44fBCfeDf7C193bc2C599" |}
].

(** The quote of one coin, as the API lays it out. *)
Definition coin_entry (symbol name : string) (price change : pyval)
    : string * pyval :=
  (symbol,
   PyDict [("name"%string, PyStr name);
           ("quote"%string,
            PyDict [("USD"%string,
                     PyDict [("price"%string, price);
                             ("percent_change_24h"%string, change)])])]).

(** Market data that quotes ETH and USDC only. *)
Definition demo_market : pyval :=
  PyDict [("status"%string, PyDict [("error_code"%string, PyInt 0)]);
          ("data"%string,
           PyDict [coin_entry "ETH" "Ethereum" (PyFloat 2000) (PyFloat (-4));
                   coin_entry "USDC" "USD Coin" (PyFloat 1)
                     (PyFloat 0.01)])].

(** Market data without quotes, and market data whose price of ETH is
    JSON's [null]. *)
Definition empty_market : pyval := PyDict [("data"%string, PyDict [])].

Definition null_price_market : pyval :=
  PyDict [("data"%string,
           PyDict [coin_entry "ETH" "Ethereum" PyNone (PyFloat (-4));
                   coin_entry "USDC" "USD Coin" (PyFloat 1)
                     (PyFloat 0.01)])].

(** A pydantic that takes nothing for a string but a string, and nothing
    for a float but a float. *)
Definition strict_str (_ : pyval) : sum error string := inl ValidationError.

Definition strict_float (_ : pyval) : sum error float := inl ValidationError.

(** A stored portfolio worth a given total, without tokens. *)
Definition stored_worth (total : float) : StoredPortfolio := {|
  portfolio := portfolio_worth total;
  tokens := [];
  risk_score := 50
|}.

(** Daily draws that alternate between +1% and -2%. *)
Definition alternating_draws (i : nat) : float :=
  if Nat.even i then 0.01 else -0.02.

(** A clock that reads 3 November 2026 throughout. *)
Definition today (_ : nat) : datetime.t := {|
  datetime.toordinal := 739923;
  datetime.in_range := eq_refl
|}.

(** ** Signs *)

(** A float that is not below zero: NaN and both zeros pass, an infinity
    or a finite number passes when its sign bit is clear. *)
Definition not_negative (x : float) : Prop :=
  match Prim2SF x with
  | S754_nan | S754_zero _ => True
  | S754_infinity s | S754_finite s _ _ => s = false
  end.

(** The result of a rounding carries the sign it was given, or is NaN. *)
Definition signed_or_nan (s : bool) (x : spec_float) : Prop :=
  match x with
  | S754_nan => True
  | S754_zero s' | S754_infinity s' | S754_finite s' _ _ => s' = s
  end.

(** ** The shape of a value *)

(** A value with every float replaced by [0.0]: what is left is the
    nesting, the keys in their order, the lengths of the lists and the
    scalars that are not floats. *)
Fixpoint erase_floats (data : pyval) : pyval :=
  match data with
  | PyFloat _ => PyFloat 0
  | PyList items => PyList (map erase_floats items)
  | PyDict entries =>
      PyDict (map (fun kv => (fst kv, erase_floats (snd kv))) entries)
  | _ => data
  end.

(** * Lemmas *)

(** ** Floats *)

Lemma finite_zero : Float.finite 0 = true.
Proof. reflexivity. Qed.

Lemma self_compare (s : bool) (m : positive) (e : Z) :
  SFcompare (S754_finite s m e) (S754_finite s m e) = Some Eq.
Proof.
  destruct s; simpl; rewrite Z.compare_refl, Pos.compare_refl;
    reflexivity.
Qed.

(** [abs] keeps a finite number finite. *)
Lemma finite_abs (x : float) :
  Float.finite x = true -> Float.finite (abs x) = true.
Proof.
  unfold Float.finite, Float.isnan, Float.isinf, is_nan, is_infinity.
  rewrite !FloatAxioms.eqb_spec, !abs_spec.
  destruct (Prim2SF x) as [s | s | | s m e]; simpl;
    try reflexivity; try discriminate.
  - destruct s; discriminate.
  - intros _. unfold SFeqb. rewrite self_compare. reflexivity.
Qed.

(** A number above zero is not zero. *)
Lemma positive_nonzero (x : float) : (0 <? x) = true -> (x =? 0) = false.
Proof.
  rewrite ltb_spec, FloatAxioms.eqb_spec.
  change (Prim2SF 0) with (S754_zero false).
  destruct (Prim2SF x) as [s | s | | s m e]; simpl;
    try reflexivity; try discriminate.
  - destruct s; reflexivity.
  - destruct s; reflexivity.
Qed.

(** Two floats with different images under a test are different. *)
Lemma neq_by (f : float -> bool) (x y : float) : f x <> f y -> x <> y.
Proof. intros H E. apply H. rewrite E. reflexivity. Qed.

(** Tells two computed floats apart by a test one passes and the other
    does not. *)
Ltac floats_differ test :=
  apply (neq_by test); vm_compute; discriminate.

Lemma zero_not_positive (x : float) : (x =? 0) = true -> (0 <? x) = false.
Proof.
  intros E. destruct (0 <? x) eqn:L; [| reflexivity].
  rewrite (positive_nonzero x L) in E. discriminate.
Qed.

(** ** The normalizer *)

Lemma safe_float_finite (value default : float) :
  Float.finite default = true -> Float.finite (safe_float value default) = true.
Proof.
  unfold safe_float, Float.finite.
  destruct (Float.isnan value || Float.isinf value) eqn:E; intros H.
  - exact H.
  - rewrite E. reflexivity.
Qed.

Lemma safe_float_of_finite (value default : float) :
  Float.finite value = true -> safe_float value default = value.
Proof.
  unfold safe_float, Float.finite.
  destruct (Float.isnan value || Float.isinf value); [discriminate | reflexivity].
Qed.

Lemma safe_float_of_non_finite (value default : float) :
  Float.finite value = false -> safe_float value default = default.
Proof.
  unfold safe_float, Float.finite.
  destruct (Float.isnan value || Float.isinf value); [reflexivity | discriminate].
Qed.

Lemma safe_float_idempotent (value default : float) :
  safe_float (safe_float value default) default = safe_float value default.
Proof.
  unfold safe_float.
  destruct (Float.isnan value || Float.isinf value) eqn:E.
  - destruct (Float.isnan default || Float.isinf default); reflexivity.
  - rewrite E. reflexivity.
Qed.

Lemma clean_data_for_json_idempotent (data : pyval) :
  clean_data_for_json (clean_data_for_json data) = clean_data_for_json data.
Proof.
  induction data using pyval_nested_ind; try reflexivity.
  - simpl. rewrite safe_float_idempotent. reflexivity.
  - simpl. f_equal. rewrite map_map.
    apply map_ext_Forall. exact H.
  - simpl. f_equal. rewrite map_map.
    apply map_ext_Forall.
    eapply Forall_impl; [| exact H].
    intros kv Hkv. simpl. rewrite Hkv. reflexivity.
Qed.

Lemma floats_clean (data : pyval) :
  floats (clean_data_for_json data)
  = map (fun f => safe_float f 0) (floats data).
Proof.
  induction data using pyval_nested_ind; try reflexivity.
  - cbn [clean_data_for_json floats].
    induction H as [| x l Hx _ IH]; [reflexivity |].
    cbn [map flat_map]. rewrite map_app, Hx, IH. reflexivity.
  - cbn [clean_data_for_json floats].
    induction H as [| kv l Hkv _ IH]; [reflexivity |].
    cbn [map flat_map snd]. rewrite map_app, Hkv, IH. reflexivity.
Qed.

Lemma clean_of_finite (data : pyval) :
  Forall (fun f => Float.finite f = true) (floats data) ->
  clean_data_for_json data = data.
Proof.
  induction data using pyval_nested_ind; try reflexivity.
  - intros F. inversion F; subst. cbn [clean_data_for_json].
    rewrite safe_float_of_finite by assumption. reflexivity.
  - cbn [clean_data_for_json floats]. intros F. f_equal.
    induction H as [| x l Hx _ IH]; [reflexivity |].
    cbn [flat_map] in F. apply Forall_app in F. destruct F as [Fx Fl].
    cbn [map]. rewrite Hx, IH by assumption. reflexivity.
  - cbn [clean_data_for_json floats]. intros F. f_equal.
    induction H as [| kv l Hkv _ IH]; [reflexivity |].
    cbn [flat_map] in F. apply Forall_app in F. destruct F as [Fx Fl].
    cbn [map]. rewrite Hkv, IH by assumption.
    destruct kv; reflexivity.
Qed.

Lemma clean_of_scalar (data : pyval) :
  non_numeric_scalar data = true -> clean_data_for_json data = data.
Proof. destruct data; simpl; intros H; try discriminate; reflexivity. Qed.

(** ** The return series *)

Lemma isnan_unique (x : float) : Float.isnan x = true -> x = nan.
Proof.
  unfold Float.isnan, is_nan. rewrite FloatAxioms.eqb_spec.
  destruct (Prim2SF x) as [s | s | | s m e] eqn:E; simpl.
  - discriminate.
  - destruct s; discriminate.
  - intros _. rewrite <- (SF2Prim_Prim2SF x), E. reflexivity.
  - unfold SFeqb. rewrite self_compare. discriminate.
Qed.

Lemma div_by_nan (x : float) : x / nan - 1 = nan.
Proof.
  assert (H : x / nan = nan).
  { rewrite <- (SF2Prim_Prim2SF (x / nan)), div_spec.
    change (Prim2SF nan) with S754_nan.
    destruct (Prim2SF x) as [s | s | | s m e]; reflexivity. }
  rewrite H. reflexivity.
Qed.

Lemma ffill_from_no_nan (prev : float) (vs : list float) :
  Forall (fun v => Float.isnan v = false) vs -> pd.ffill_from prev vs = vs.
Proof.
  intros H. revert prev.
  induction H as [| v vs Hv _ IH]; intros prev; simpl.
  - reflexivity.
  - rewrite Hv, IH. reflexivity.
Qed.

Lemma shifted_ratios (v : float) (tl : list float) :
  map (fun ds => fst ds / snd ds - 1) (combine tl (v :: removelast tl))
  = simple_returns (v :: tl).
Proof.
  revert v. induction tl as [| w tl IH]; intros v.
  - reflexivity.
  - destruct tl as [| w' tl'].
    + reflexivity.
    + change (removelast (w :: w' :: tl')) with (w :: removelast (w' :: tl')).
      change (combine (w :: w' :: tl') (v :: w :: removelast (w' :: tl')))
        with ((w, v) :: combine (w' :: tl') (w :: removelast (w' :: tl'))).
      rewrite map_cons, IH. reflexivity.
Qed.

(** Without forward filling, [pct_change] is NaN at the first row and the
    simple returns below it. *)
Lemma pct_change_unfilled (v : float) (tl : list float) :
  pd.pct_change false (v :: tl) = nan :: simple_returns (v :: tl).
Proof.
  unfold pd.pct_change, pd.shift.
  destruct tl as [| w tl'].
  - cbn [removelast combine map fst snd]. rewrite div_by_nan. reflexivity.
  - change (removelast (v :: w :: tl')) with (v :: removelast (w :: tl')).
    change (combine (v :: w :: tl') (nan :: v :: removelast (w :: tl')))
      with ((v, nan) :: combine (w :: tl') (v :: removelast (w :: tl'))).
    rewrite map_cons, shifted_ratios.
    cbn [fst snd]. rewrite div_by_nan. reflexivity.
Qed.

Lemma pct_change_no_nan (pad : bool) (vs : list float) :
  (pad = true -> Forall (fun v => Float.isnan v = false) vs) ->
  pd.pct_change pad vs = pd.pct_change false vs.
Proof.
  destruct pad; intros H; [| reflexivity].
  unfold pd.pct_change, pd.ffill.
  rewrite ffill_from_no_nan by (apply H; reflexivity).
  reflexivity.
Qed.

Lemma lookup_absent (i : nat) (s : pd.Series) :
  Forall (fun iv => fst iv <> i) s -> pd.lookup i s = None.
Proof.
  unfold pd.lookup. induction 1 as [| iv s Hiv _ IH]; simpl.
  - reflexivity.
  - apply Nat.eqb_neq in Hiv. rewrite Hiv. exact IH.
Qed.

Lemma dropna_labels (k n : nat) (l : list float) :
  Forall (fun iv => fst iv <> k) (pd.dropna (combine (seq (S k) n) l)).
Proof.
  apply Forall_forall. intros [i v] Hin. simpl.
  apply filter_In in Hin. destruct Hin as [Hin _].
  apply in_combine_l in Hin. apply in_seq in Hin. lia.
Qed.

(** Assigning [pct_change().dropna()] back as a column of the frame
    restores the rows [dropna] removed, as NaN: the column is the
    [pct_change] series itself. *)
Lemma assign_dropna (l : list float) :
  pd.assign_column (length l) (pd.dropna (pd.of_values l)) = l.
Proof.
  unfold pd.assign_column, pd.of_values.
  generalize 0%nat as k.
  induction l as [| x l IH]; intros k.
  - reflexivity.
  - cbn [length seq combine map].
    assert (Htail : forall s : pd.Series, forall y,
      map (fun i => match pd.lookup i ((k, y) :: s) with
                    | Some v => v | None => nan end) (seq (S k) (length l))
      = map (fun i => match pd.lookup i s with
                      | Some v => v | None => nan end) (seq (S k) (length l))).
    { intros s y. apply map_ext_in. intros i Hi. apply in_seq in Hi.
      unfold pd.lookup. simpl.
      destruct (Nat.eqb_spec k i); [lia | reflexivity]. }
    unfold pd.dropna at 1 2. cbn [filter snd].
    destruct (Float.isnan x) eqn:Ex; cbn [negb].
    + fold (pd.dropna (combine (seq (S k) (length l)) l)).
      rewrite lookup_absent by apply dropna_labels.
      rewrite IH. rewrite (isnan_unique x Ex). reflexivity.
    + fold (pd.dropna (combine (seq (S k) (length l)) l)).
      rewrite Htail, IH.
      unfold pd.lookup. simpl. rewrite Nat.eqb_refl. reflexivity.
Qed.

(** ** The two paths of the calculator *)

Section CalculatorFacts.

Variable pad : bool.
Variable sk ku : list float -> float.

(** Behind its guard, the division of Python floats does not raise. *)
Lemma guarded_division (excess deviation : float) :
  (if 0 <? deviation then py_truediv excess deviation else ret 0)
  = inr (if 0 <? deviation then excess / deviation else 0).
Proof.
  destruct (0 <? deviation) eqn:E; [| reflexivity].
  unfold py_truediv. rewrite (positive_nonzero _ E). reflexivity.
Qed.

Lemma return_series_nil : return_series pad [] = [].
Proof. destruct pad; reflexivity. Qed.

Lemma try_block_degenerate (p : Portfolio) (h : list HistoryPoint) :
  length (return_series pad h) < 2 ->
  try_block pad sk ku p h = inr (zero_metrics p).
Proof.
  intros H. destruct h as [| x h]; [reflexivity |].
  unfold try_block. apply Nat.ltb_lt in H. rewrite H. reflexivity.
Qed.

Lemma try_block_normal (p : Portfolio) (h : list HistoryPoint) :
  2 <= length (return_series pad h) ->
  try_block pad sk ku p h = inr (normal_metrics sk ku p (return_series pad h)).
Proof.
  intros H. destruct h as [| x h].
  - rewrite return_series_nil in H. simpl in H. lia.
  - unfold try_block.
    assert (E : (length (return_series pad (x :: h)) <? 2)%nat = false)
      by (apply Nat.ltb_ge; exact H).
    rewrite E. cbv zeta.
    rewrite !guarded_division.
    reflexivity.
Qed.

Lemma calculate_degenerate (p : Portfolio) (h : list HistoryPoint) :
  length (return_series pad h) < 2 ->
  calculate_portfolio_metrics pad sk ku p h = zero_metrics p.
Proof.
  intros H. unfold calculate_portfolio_metrics.
  rewrite try_block_degenerate by exact H. reflexivity.
Qed.

Lemma calculate_normal (p : Portfolio) (h : list HistoryPoint) :
  2 <= length (return_series pad h) ->
  calculate_portfolio_metrics pad sk ku p h
  = normal_metrics sk ku p (return_series pad h).
Proof.
  intros H. unfold calculate_portfolio_metrics.
  rewrite try_block_normal by exact H. reflexivity.
Qed.

Lemma guarded_ratio_finite (excess deviation : float) :
  Float.finite (guarded_ratio excess deviation) = true.
Proof. apply safe_float_finite, finite_zero. Qed.

Lemma normal_metrics_finite (p : Portfolio) (returns : list float) :
  all_finite (normal_metrics sk ku p returns) = true.
Proof.
  unfold all_finite, normal_metrics; cbn [value_at_risk conditional_var
    max_drawdown sharpe_ratio sortino_ratio volatility skewness kurtosis].
  rewrite !finite_abs by apply safe_float_finite, finite_zero.
  rewrite !guarded_ratio_finite.
  unfold annualized_std.
  rewrite !safe_float_finite by apply finite_zero.
  reflexivity.
Qed.

End CalculatorFacts.

(** ** The return series, in closed form *)

Lemma removelast_length (v : float) (tl : list float) :
  length (removelast (v :: tl)) = length tl.
Proof.
  revert v. induction tl as [| w tl IH]; intros v; [reflexivity |].
  change (removelast (v :: w :: tl)) with (v :: removelast (w :: tl)).
  cbn [length]. f_equal. apply IH.
Qed.

Lemma shift_length (vs : list float) : length (pd.shift vs) = length vs.
Proof.
  destruct vs as [| v tl]; [reflexivity |].
  unfold pd.shift. cbn [length]. f_equal. apply removelast_length.
Qed.

Lemma ffill_from_length (prev : float) (vs : list float) :
  length (pd.ffill_from prev vs) = length vs.
Proof.
  revert prev. induction vs as [| v vs IH]; intros prev; simpl.
  - reflexivity.
  - destruct (Float.isnan v); simpl; rewrite IH; reflexivity.
Qed.

Lemma pct_change_length (pad : bool) (vs : list float) :
  length (pd.pct_change pad vs) = length vs.
Proof.
  unfold pd.pct_change.
  rewrite length_map, length_combine, shift_length, Nat.min_id.
  destruct pad; [apply ffill_from_length | reflexivity].
Qed.

(** With forward filling a missing valuation takes the value before it:
    the return at its row is 0 and the next return is taken from the
    filled value.  Without, both returns are NaN and removed. *)
Example missing_valuation_is_padded :
  return_series true (history_of [1; nan; 2]) = [0; 1]
  /\ return_series false (history_of [1; nan; 2]) = [].
Proof. split; reflexivity. Qed.

(** The return series is what is finite in [pct_change]. *)
Lemma return_series_filter (pad : bool) (h : list HistoryPoint) :
  return_series pad h
  = filter Float.finite (pd.pct_change pad (map value h)).
Proof.
  unfold return_series.
  replace (length h) with (length (pd.pct_change pad (map value h)))
    by (rewrite pct_change_length; apply length_map).
  rewrite assign_dropna. reflexivity.
Qed.

(** In general the returns are those of the series as [pct_change]
    takes it: forward-filled, or as it is. *)
Lemma return_series_filled (pad : bool) (h : list HistoryPoint) :
  return_series pad h
  = filter Float.finite
      (simple_returns
         (if pad then pd.ffill (map value h) else map value h)).
Proof.
  rewrite return_series_filter.
  assert (G : forall vs,
            filter Float.finite (pd.pct_change false vs)
            = filter Float.finite (simple_returns vs)).
  { intros [| v tl]; [reflexivity |].
    rewrite pct_change_unfilled. reflexivity. }
  destruct pad; [| apply G].
  change (pd.pct_change true (map value h))
    with (pd.pct_change false (pd.ffill (map value h))).
  apply G.
Qed.

(** A series of at most one valuation has no return. *)
Lemma return_series_short (pad : bool) (h : list HistoryPoint) :
  length h < 2 -> return_series pad h = [].
Proof.
  intros H. rewrite return_series_filter.
  destruct h as [| x [| y h]];
    [destruct pad; reflexivity | | simpl in H; lia].
  unfold pd.pct_change, pd.shift.
  cbn [map removelast combine fst snd].
  destruct pad; cbn [pd.ffill pd.ffill_from].
  - destruct (Float.isnan (value x)); cbn [combine map fst snd];
      rewrite div_by_nan; reflexivity.
  - cbn [combine map fst snd]. rewrite div_by_nan. reflexivity.
Qed.

Lemma simple_returns_length (vs : list float) :
  length (simple_returns vs) = (length vs - 1)%nat.
Proof.
  induction vs as [| v [| w tl] IH]; [reflexivity | reflexivity |].
  change (simple_returns (v :: w :: tl))
    with ((w / v - 1) :: simple_returns (w :: tl)).
  cbn [length] in *. lia.
Qed.

Lemma std_unfold (a : list float) :
  np.std a
  = sqrt (np.sum (map (fun v => (v - np.mean a) * (v - np.mean a)) a)
          / Float.of_nat (length a)).
Proof. unfold np.std, np.mean. rewrite map_map. reflexivity. Qed.

(** ** Signs of computed floats *)

Lemma binary_round_aux_sign (s : bool) (m e : Z) (l : location) :
  signed_or_nan s (binary_round_aux prec emax s m e l).
Proof.
  unfold binary_round_aux.
  destruct (shr_fexp prec emax m e l) as [mrs' e'].
  destruct (shr_fexp prec emax
              (round_nearest_even (shr_m mrs') (loc_of_shr_record mrs'))
              e' loc_Exact) as [mrs'' e''].
  unfold signed_or_nan.
  destruct (shr_m mrs'') as [| q | q]; try reflexivity; try exact I.
  destruct (e'' <=? emax - prec)%Z; reflexivity.
Qed.

Lemma sqrt_not_negative (x : float) : not_negative (sqrt x).
Proof.
  unfold not_negative. rewrite sqrt_spec. unfold SF64sqrt, SFsqrt.
  destruct (Prim2SF x) as [s | [|] | | [|] m e]; try exact I; try reflexivity.
  destruct (SFsqrt_core_binary prec emax (Z.pos m) e) as [[mz ez] lz].
  pose proof (binary_round_aux_sign false mz ez lz) as H.
  destruct (binary_round_aux prec emax false mz ez lz); simpl in H;
    try exact I; exact H.
Qed.

Lemma mul_not_negative (x y : float) :
  not_negative x -> not_negative y -> not_negative (x * y).
Proof.
  unfold not_negative. rewrite mul_spec. unfold SF64mul, SFmul.
  destruct (Prim2SF x) as [sx | sx | | sx mx ex];
    destruct (Prim2SF y) as [sy | sy | | sy my ey];
    intros Hx Hy; subst; try exact I; try reflexivity.
  pose proof (binary_round_aux_sign (xorb false false)
                (Z.pos (mx * my)) (ex + ey) loc_Exact) as H.
  destruct (binary_round_aux prec emax (xorb false false)
              (Z.pos (mx * my)) (ex + ey) loc_Exact); simpl in H;
    try exact I; exact H.
Qed.

Lemma finite_not_nan (x : float) :
  Float.finite x = true -> Prim2SF x <> S754_nan.
Proof.
  unfold Float.finite, Float.isnan, is_nan.
  rewrite FloatAxioms.eqb_spec. intros F E. rewrite E in F.
  discriminate.
Qed.

Lemma finite_not_infinity (x : float) (s : bool) :
  Float.finite x = true -> Prim2SF x <> S754_infinity s.
Proof.
  unfold Float.finite, Float.isinf, is_infinity.
  rewrite FloatAxioms.eqb_spec, abs_spec. intros F E. rewrite E in F.
  rewrite orb_true_r in F. discriminate.
Qed.

(** Through the normalizer, a float that is not negative is at least 0. *)
Lemma safe_float_not_negative (x : float) :
  not_negative x -> (0 <=? safe_float x 0) = true.
Proof.
  intros N.
  destruct (Float.finite x) eqn:F.
  - rewrite safe_float_of_finite by exact F.
    pose proof (finite_not_nan x F) as Hn.
    unfold not_negative in N. rewrite leb_spec.
    change (Prim2SF 0) with (S754_zero false).
    destruct (Prim2SF x) as [s | s | | s m e]; subst;
      try reflexivity; contradiction.
  - rewrite safe_float_of_non_finite by exact F. reflexivity.
Qed.

(** The absolute value of a normalized float is at least 0. *)
Lemma abs_safe_float_nonneg (x : float) :
  (0 <=? abs (safe_float x 0)) = true.
Proof.
  pose proof (safe_float_finite x 0 finite_zero) as F.
  pose proof (finite_not_nan _ F) as Hn.
  rewrite leb_spec, abs_spec.
  change (Prim2SF 0) with (S754_zero false).
  destruct (Prim2SF (safe_float x 0)) as [s | s | | s m e];
    try reflexivity; contradiction.
Qed.

Lemma annualized_std_nonneg (returns : list float) :
  (0 <=? annualized_std returns) = true.
Proof.
  unfold annualized_std. apply safe_float_not_negative.
  apply mul_not_negative.
  - unfold np.std. apply sqrt_not_negative.
  - apply sqrt_not_negative.
Qed.

(** Whatever is multiplied by a zero is a zero or NaN. *)
Lemma zero_spec (y : float) :
  (y =? 0) = true -> exists s, Prim2SF y = S754_zero s.
Proof.
  rewrite FloatAxioms.eqb_spec. change (Prim2SF 0) with (S754_zero false).
  destruct (Prim2SF y) as [s | s | | s m e]; simpl; try discriminate.
  - intros _. exists s. reflexivity.
  - destruct s; discriminate.
  - destruct s; discriminate.
Qed.

Lemma abs_safe_float_times_zero (x y : float) :
  (y =? 0) = true -> abs (safe_float (x * y) 0) = 0.
Proof.
  intros Z. destruct (zero_spec y Z) as [sy Ey].
  assert (H : x * y = nan \/ x * y = 0 \/ x * y = -0).
  { rewrite <- (SF2Prim_Prim2SF (x * y)), mul_spec, Ey.
    unfold SF64mul, SFmul.
    destruct (Prim2SF x) as [sx | sx | | sx mx ex];
      try (left; reflexivity);
      destruct (xorb sx sy);
      try (right; right; reflexivity); right; left; reflexivity. }
  destruct H as [H | [H | H]]; rewrite H; reflexivity.
Qed.

(** ** Length of the return series *)

Lemma return_series_length (pad : bool) (h : list HistoryPoint) :
  length (return_series pad h) <= length h - 1.
Proof.
  rewrite return_series_filter.
  pose proof (pct_change_length pad (map value h)) as L.
  rewrite length_map in L.
  unfold pd.pct_change in *.
  set (data := if pad then pd.ffill (map value h) else map value h) in *.
  destruct data as [| d0 dtl]; [simpl in *; lia |].
  unfold pd.shift in *.
  change (combine (d0 :: dtl) (nan :: removelast (d0 :: dtl)))
    with ((d0, nan) :: combine dtl (removelast (d0 :: dtl))) in *.
  rewrite map_cons in *. cbn [fst snd] in *.
  rewrite div_by_nan in *.
  change (filter Float.finite (nan :: ?l)) with (filter Float.finite l).
  cbn [filter]. change (Float.finite nan) with false. cbn iota.
  cbn [length] in L.
  match goal with
  | |- length (filter Float.finite ?l) <= _ =>
      pose proof (filter_length_le Float.finite l)
  end.
  lia.
Qed.

(** ** Shape and floats of a cleaned value *)

Lemma erase_floats_clean (data : pyval) :
  erase_floats (clean_data_for_json data) = erase_floats data.
Proof.
  induction data using pyval_nested_ind; try reflexivity.
  - cbn [clean_data_for_json erase_floats]. f_equal. rewrite map_map.
    apply map_ext_Forall. exact H.
  - cbn [clean_data_for_json erase_floats]. f_equal. rewrite map_map.
    apply map_ext_Forall.
    eapply Forall_impl; [| exact H].
    intros kv Hkv. cbn [fst snd]. rewrite Hkv. reflexivity.
Qed.

(** ** The dict of the cache *)

Section DictFacts.

Variable V : Type.
Implicit Types (store : cache_store V) (entry : V * float).

Lemma dict_get_set_same (key : string) entry store :
  dict_get key (dict_set key entry store) = Some entry.
Proof.
  induction store as [| [k e] store IH]; simpl.
  - rewrite String.eqb_refl. reflexivity.
  - destruct (String.eqb k key) eqn:E; simpl; rewrite E; [reflexivity |].
    exact IH.
Qed.

Lemma dict_get_set_other (key key' : string) entry store :
  key <> key' ->
  dict_get key' (dict_set key entry store) = dict_get key' store.
Proof.
  intros N. induction store as [| [k e] store IH]; simpl.
  - apply String.eqb_neq in N. rewrite N. reflexivity.
  - destruct (String.eqb k key) eqn:E; simpl.
    + apply String.eqb_eq in E. subst k.
      apply String.eqb_neq in N. rewrite N. reflexivity.
    + rewrite IH. reflexivity.
Qed.

Lemma dict_get_del_same (key : string) store :
  dict_get key (dict_del key store) = None.
Proof.
  induction store as [| [k e] store IH]; simpl; [reflexivity |].
  destruct (String.eqb k key) eqn:E; simpl; [exact IH |].
  rewrite E. exact IH.
Qed.

Lemma dict_get_del_other (key key' : string) store :
  key <> key' -> dict_get key' (dict_del key store) = dict_get key' store.
Proof.
  intros N. induction store as [| [k e] store IH]; simpl; [reflexivity |].
  destruct (String.eqb k key) eqn:E; simpl.
  - apply String.eqb_eq in E. subst k.
    apply String.eqb_neq in N. rewrite N. exact IH.
  - rewrite IH. reflexivity.
Qed.

End DictFacts.

(** ** Order of floats *)

Lemma ltb_leb (a b : float) : (a <? b) = true -> (a <=? b) = true.
Proof.
  rewrite ltb_spec, leb_spec. unfold SFltb, SFleb.
  destruct (SFcompare (Prim2SF a) (Prim2SF b)) as [[| |] |];
    try discriminate; reflexivity.
Qed.

Lemma py_max0_nonneg (x : float) : (0 <=? py_max0 x) = true.
Proof.
  unfold py_max0. destruct (0 <? x) eqn:E; [| reflexivity].
  apply ltb_leb. exact E.
Qed.

Lemma basic_risk_score_bounds (portfolio_tokens : list TokenBalance.t) :
  (0 <=? basic_risk_score portfolio_tokens) = true
  /\ (basic_risk_score portfolio_tokens <=? 100) = true.
Proof.
  unfold basic_risk_score.
  destruct portfolio_tokens as [| t l]; [split; reflexivity |].
  unfold py_min100.
  match goal with |- context [py_max0 ?x] => set (m := py_max0 x) end.
  destruct (m <? 100) eqn:E.
  - split; [apply py_max0_nonneg | apply ltb_leb; exact E].
  - split; reflexivity.
Qed.

(** A positive finite number times zero is zero. *)
Lemma positive_times_zero (x : float) :
  (0 <? x) = true -> Float.finite x = true -> x * 0 = 0.
Proof.
  intros P F.
  pose proof (finite_not_infinity x false F) as Hi.
  rewrite ltb_spec in P. change (Prim2SF 0) with (S754_zero false) in P.
  rewrite <- (SF2Prim_Prim2SF (x * 0)), mul_spec.
  change (Prim2SF 0) with (S754_zero false).
  destruct (Prim2SF x) as [s | s | | s m e]; try discriminate.
  - destruct s; [discriminate | contradiction].
  - destruct s; [discriminate | reflexivity].
Qed.

(** ** The loop of the portfolio creation *)

Lemma py_get_dict_at (key : string) (entries d : list (string * pyval)) :
  dict_at key entries = Some d ->
  py_get (PyDict entries) key (PyDict []) = inr (PyDict d).
Proof.
  unfold dict_at, py_get. cbn [ret Monad_either].
  destruct (assoc key entries) as [[] |]; intros E; try discriminate;
    injection E as <-; reflexivity.
Qed.

Lemma py_get_float_at (key : string) (default f : float)
    (entries : list (string * pyval)) :
  float_at key default entries = Some f ->
  py_get (PyDict entries) key (PyFloat default) = inr (PyFloat f).
Proof.
  unfold float_at, py_get. cbn [ret Monad_either].
  destruct (assoc key entries) as [[] |]; intros E; try discriminate;
    injection E as <-; reflexivity.
Qed.

Lemma py_get_str_at (key default s : string)
    (entries : list (string * pyval)) :
  str_at key default entries = Some s ->
  py_get (PyDict entries) key (PyStr default) = inr (PyStr s).
Proof.
  unfold str_at, py_get. cbn [ret Monad_either].
  destruct (assoc key entries) as [[] |]; intros E; try discriminate;
    injection E as <-; reflexivity.
Qed.

(** Market data without an entry for a symbol quotes the defaults. *)
Lemma quotation_unlisted (market_data : pyval) (symbol : string) :
  unlisted market_data symbol = true ->
  quotation market_data symbol = Some (symbol, 0, 0).
Proof.
  unfold unlisted, quotation.
  destruct market_data as [| | | | | | | top]; try discriminate.
  destruct (dict_at "data" top) as [data |]; [| discriminate].
  unfold dict_at.
  destruct (assoc symbol data); [discriminate |]. reflexivity.
Qed.

Lemma quoted_token_unlisted (market_data : pyval) (wallet : string)
    (x : Holding.t) :
  unlisted market_data (Holding.symbol x) = true ->
  TokenBalance.name (quoted_token market_data wallet x) = Holding.symbol x
  /\ TokenBalance.price_usd (quoted_token market_data wallet x) = 0
  /\ TokenBalance.change_24h (quoted_token market_data wallet x) = 0
  /\ ((0 <? Holding.balance x) = true ->
      Float.finite (Holding.balance x) = true ->
      TokenBalance.value_usd (quoted_token market_data wallet x) = 0).
Proof.
  intros U. unfold quoted_token. rewrite (quotation_unlisted _ _ U).
  cbn. repeat split. intros P Fin. apply positive_times_zero; assumption.
Qed.

(** The tokens built at the quoted fields carry them. *)
Lemma quoted_tokens_quotation (market_data : pyval) (wallet : string)
    (token_balances : list Holding.t) :
  Forall (fun token => quoted market_data (Holding.symbol token) = true)
    token_balances ->
  Forall2
    (fun token t =>
       quotation market_data (Holding.symbol token)
       = Some (TokenBalance.name t, TokenBalance.price_usd t,
               TokenBalance.change_24h t))
    token_balances (map (quoted_token market_data wallet) token_balances).
Proof.
  induction 1 as [| token rest Q _ IH]; [constructor |].
  cbn [map]. constructor; [| exact IH].
  unfold quoted in Q. unfold quoted_token.
  destruct (quotation market_data (Holding.symbol token)) as [[[n p] c] |];
    [reflexivity | discriminate].
Qed.

Section CreationFacts.

Variable coerce_str : pyval -> sum error string.
Variable coerce_float : pyval -> sum error float.

(** On a symbol quoted in the documented shape the body of the loop
    raises nothing and builds the token at the quoted fields. *)
Lemma token_of_quoted (market_data : pyval) (wallet : string)
    (token : Holding.t) :
  quoted market_data (Holding.symbol token) = true ->
  token_of coerce_str coerce_float market_data wallet token
  = inr (quoted_token market_data wallet token).
Proof.
  unfold quoted, quoted_token, quotation, token_of.
  destruct market_data as [| | | | | | | top]; try discriminate.
  destruct (dict_at "data" top) as [data |] eqn:D; [| discriminate].
  destruct (dict_at (Holding.symbol token) data) as [coin |] eqn:C;
    [| discriminate].
  destruct (str_at "name" (Holding.symbol token) coin) as [name |] eqn:N;
    [| discriminate].
  destruct (dict_at "quote" coin) as [quotes |] eqn:Q; [| discriminate].
  destruct (dict_at "USD" quotes) as [usd |] eqn:U; [| discriminate].
  destruct (float_at "price" 0 usd) as [price |] eqn:P; [| discriminate].
  destruct (float_at "percent_change_24h" 0 usd) as [change |] eqn:Ch;
    [| discriminate].
  intros _.
  rewrite (py_get_dict_at _ _ _ D). cbn [bind Monad_either].
  rewrite (py_get_dict_at _ _ _ C). cbn [bind Monad_either].
  rewrite (py_get_dict_at _ _ _ Q). cbn [bind Monad_either].
  rewrite (py_get_dict_at _ _ _ U). cbn [bind Monad_either].
  rewrite (py_get_float_at _ _ _ _ P). cbn [bind Monad_either].
  rewrite (py_get_float_at _ _ _ _ Ch). cbn [bind Monad_either].
  cbn [py_float_mul bind ret Monad_either].
  rewrite (py_get_str_at _ _ _ _ N).
  reflexivity.
Qed.

Lemma value_tokens_quoted (market_data : pyval) (wallet : string)
    (token_balances : list Holding.t) (acc : list TokenBalance.t)
    (total : float) :
  Forall (fun token => quoted market_data (Holding.symbol token) = true)
    token_balances ->
  value_tokens coerce_str coerce_float market_data wallet token_balances acc
    total
  = inr (acc ++ map (quoted_token market_data wallet) token_balances,
         fold_left add
           (map TokenBalance.value_usd
              (map (quoted_token market_data wallet) token_balances))
           total).
Proof.
  intros Q. revert acc total.
  induction Q as [| token rest Qt _ IH]; intros acc total.
  - simpl. rewrite app_nil_r. reflexivity.
  - cbn [value_tokens]. rewrite (token_of_quoted _ _ _ Qt).
    cbn [bind Monad_either]. rewrite IH, <- app_assoc. reflexivity.
Qed.

(** Without market data the first holding already raises. *)
Lemma value_tokens_unfetched (wallet : string)
    (token_balances : list Holding.t) (acc : list TokenBalance.t)
    (total : float) :
  token_balances <> [] ->
  value_tokens coerce_str coerce_float PyNone wallet token_balances acc total
  = inl AttributeError.
Proof.
  destruct token_balances as [| t rest]; [contradiction | reflexivity].
Qed.

(** One holding that raises ends the loop. *)
Lemma value_tokens_fails (market_data : pyval) (wallet : string)
    (token_balances : list Holding.t) (token : Holding.t) (e : error)
    (acc : list TokenBalance.t) (total : float) :
  In token token_balances ->
  token_of coerce_str coerce_float market_data wallet token = inl e ->
  exists e',
    value_tokens coerce_str coerce_float market_data wallet token_balances
      acc total = inl e'.
Proof.
  intros Hin E. revert acc total.
  induction token_balances as [| t rest IH]; intros acc total;
    [contradiction |].
  cbn [value_tokens].
  destruct (token_of coerce_str coerce_float market_data wallet t)
    as [e1 | tok] eqn:T.
  - exists e1. reflexivity.
  - cbn [bind Monad_either]. destruct Hin as [-> | Hin].
    + rewrite E in T. discriminate.
    + apply IH. exact Hin.
Qed.

(** A price that is no number raises in the product with the balance. *)
Lemma token_of_not_a_factor (market_data : pyval) (wallet : string)
    (token : Holding.t) (price : pyval) :
  stored_price market_data (Holding.symbol token) = Some price ->
  not_a_factor price = true ->
  token_of coerce_str coerce_float market_data wallet token = inl TypeError.
Proof.
  unfold stored_price, token_of, py_get.
  destruct market_data as [| | | | | | | top]; try discriminate.
  cbn [bind ret Monad_either].
  destruct (assoc "data" top) as [[| | | | | | | data] |]; try discriminate.
  cbn [bind ret Monad_either].
  destruct (assoc (Holding.symbol token) data) as [[| | | | | | | coin] |];
    try discriminate.
  cbn [bind ret Monad_either].
  destruct (assoc "quote" coin) as [[| | | | | | | quotes] |];
    try discriminate.
  cbn [bind ret Monad_either].
  destruct (assoc "USD" quotes) as [[| | | | | | | usd] |]; try discriminate.
  cbn [bind ret Monad_either].
  intros P N. rewrite P.
  destruct (assoc "percent_change_24h" usd);
    destruct price; try discriminate; reflexivity.
Qed.

(** The portfolio built from quoted tokens. *)
Lemma create_portfolio_quoted (new_id user wallet : string)
    (token_balances : list Holding.t)
    (fetch_market : list string -> option pyval) (market_data : pyval) :
  fetch_market (requested_symbols token_balances) = Some market_data ->
  Forall (fun token => quoted market_data (Holding.symbol token) = true)
    token_balances ->
  create_portfolio coerce_str coerce_float new_id user wallet token_balances
    fetch_market None
  = inr {|
      portfolio := {|
        id := new_id;
        user_id := user;
        wallet_address := wallet;
        total_value_usd :=
          fold_left add
            (map TokenBalance.value_usd
               (map (quoted_token market_data wallet) token_balances)) 0
      |};
      tokens := map (quoted_token market_data wallet) token_balances;
      risk_score :=
        basic_risk_score
          (map (quoted_token market_data wallet) token_balances)
    |}.
Proof.
  intros F Q. unfold create_portfolio.
  rewrite F, (value_tokens_quoted _ _ _ _ _ Q).
  reflexivity.
Qed.

(** What [create_portfolio] returns was built by the loop. *)
Lemma create_portfolio_returns (new_id user wallet : string)
    (token_balances : list Holding.t)
    (fetch_market : list string -> option pyval)
    (insert_error : option error) (p : StoredPortfolio) :
  create_portfolio coerce_str coerce_float new_id user wallet token_balances
    fetch_market insert_error = inr p ->
  insert_error = None
  /\ exists total,
       value_tokens coerce_str coerce_float
         match fetch_market (requested_symbols token_balances) with
         | Some data => data
         | None => PyNone
         end wallet token_balances [] 0 = inr (tokens p, total)
       /\ risk_score p = basic_risk_score (tokens p).
Proof.
  unfold create_portfolio.
  destruct (value_tokens coerce_str coerce_float _ wallet token_balances [] 0)
    as [e | [toks total]]; cbn [bind ret catch Monad_either Exception_either];
    [discriminate |].
  destruct insert_error as [e |];
    cbn [bind ret raise catch Monad_either Exception_either];
    [discriminate |].
  intros E. injection E as <-. split; [reflexivity |].
  exists total. split; reflexivity.
Qed.

Lemma create_portfolio_raises_500 (new_id user wallet : string)
    (token_balances : list Holding.t)
    (fetch_market : list string -> option pyval)
    (insert_error : option error) (e : error) :
  create_portfolio coerce_str coerce_float new_id user wallet token_balances
    fetch_market insert_error = inl e ->
  e = HTTPException 500.
Proof.
  unfold create_portfolio.
  destruct (value_tokens coerce_str coerce_float _ wallet token_balances [] 0)
    as [e1 | [toks total]]; cbn [bind ret catch Monad_either Exception_either].
  - intros E. injection E as <-. reflexivity.
  - destruct insert_error as [e1 |];
      cbn [bind ret raise catch Monad_either Exception_either];
      intros E; [injection E as <-; reflexivity | discriminate].
Qed.

End CreationFacts.

Lemma sum_of_zeros (l : list float) :
  Forall (fun v => v = 0) l -> fold_left add l 0 = 0.
Proof.
  induction 1 as [| v l -> _ IH]; [reflexivity |].
  cbn [fold_left]. change (0 + 0) with 0. exact IH.
Qed.

(** ** Products with zero *)

Lemma finite_spec (x : float) :
  Float.finite x = true ->
  exists s, Prim2SF x = S754_zero s \/ exists m e, Prim2SF x = S754_finite s m e.
Proof.
  intros F.
  pose proof (finite_not_nan x F) as Hn.
  destruct (Prim2SF x) as [s | s | | s m e] eqn:E.
  - exists s. left. reflexivity.
  - exfalso. exact (finite_not_infinity x s F E).
  - contradiction.
  - exists s. right. exists m, e. reflexivity.
Qed.

Lemma zero_times_finite (x y : float) :
  (x =? 0) = true -> Float.finite y = true -> (x * y =? 0) = true.
Proof.
  intros Z F. destruct (zero_spec x Z) as [sx Ex].
  destruct (finite_spec y F) as [sy [Ey | [m [e Ey]]]];
    rewrite FloatAxioms.eqb_spec, mul_spec, Ex, Ey; reflexivity.
Qed.

(** ** The simulated history *)

Lemma minus_days_back (now : datetime.t) (i : nat) :
  (Z.of_nat i < datetime.toordinal now)%Z ->
  datetime.minus_days now (Z.of_nat i)
  = inr (datetime.toordinal now - Z.of_nat i)%Z.
Proof.
  intros H. pose proof (datetime.in_range now) as R.
  apply andb_true_iff in R. destruct R as [_ R].
  apply Z.leb_le in R. unfold datetime.MAXORDINAL in R.
  unfold datetime.minus_days.
  replace (999999999 <? Z.abs (Z.of_nat i))%Z with false
    by (symmetry; apply Z.ltb_ge; lia).
  replace ((1 <=? datetime.toordinal now - Z.of_nat i)
           && (datetime.toordinal now - Z.of_nat i
               <=? datetime.MAXORDINAL))%Z with true; [reflexivity |].
  symmetry. apply andb_true_iff.
  split; apply Z.leb_le; unfold datetime.MAXORDINAL; lia.
Qed.

Lemma minus_days_before_year_one (now : datetime.t) (i : nat) :
  (datetime.toordinal now <= Z.of_nat i)%Z ->
  datetime.minus_days now (Z.of_nat i) = inl OverflowError.
Proof.
  intros H. unfold datetime.minus_days.
  destruct (999999999 <? Z.abs (Z.of_nat i))%Z; [reflexivity |].
  replace (1 <=? datetime.toordinal now - Z.of_nat i)%Z with false
    by (symmetry; apply Z.leb_gt; lia).
  reflexivity.
Qed.

(** The clock reads a day after the epoch: the first 719163 rows have a
    date. *)
Lemma epoch_rows_in_range (now : nat -> datetime.t) (n : nat) :
  (Z.of_nat n <= datetime.EPOCH)%Z ->
  forall i : nat, (i < n)%nat ->
    (Z.of_nat i < datetime.toordinal (now i))%Z.
Proof.
  intros H i Hi. pose proof (datetime.in_range (now i)) as R.
  apply andb_true_iff in R. destruct R as [R _].
  apply Z.leb_le in R. lia.
Qed.

(** While every date is in range, the loop builds one row a day. *)
Lemma simulate_history_dated (now : nat -> datetime.t) (draw : nat -> float)
    (base : float) (i n : nat) :
  (forall k : nat, (i <= k < i + n)%nat ->
     (Z.of_nat k < datetime.toordinal (now k))%Z) ->
  exists h : list HistoryPoint,
    simulate_history now draw base i n = inr h
    /\ length h = n
    /\ ((base =? 0) = true ->
        (forall k, Float.finite (1 + draw k) = true) ->
        Forall (fun v => (v =? 0) = true) (map value h)).
Proof.
  revert base i. induction n as [| n IH]; intros base i R.
  - exists []. split; [reflexivity |]. split; [reflexivity |].
    intros _ _. constructor.
  - destruct (IH (base * (1 + draw i)) (S i)) as [h [E [L Z]]].
    { intros k Hk. apply R. lia. }
    cbn [simulate_history].
    rewrite minus_days_back by (apply R; lia).
    cbn [bind ret Monad_either]. rewrite E.
    eexists. split; [reflexivity |]. split; [simpl; rewrite L; reflexivity |].
    intros Zb F. cbn [map value].
    assert (Zv : (base * (1 + draw i) =? 0) = true)
      by (apply zero_times_finite; [exact Zb | apply F]).
    constructor; [exact Zv | exact (Z Zv F)].
Qed.

(** A row whose date would fall before year 1 ends the loop. *)
Lemma simulate_history_overflow (now : nat -> datetime.t)
    (draw : nat -> float) (base : float) (i n : nat) :
  (exists k : nat, (i <= k < i + n)%nat
     /\ (datetime.toordinal (now k) <= Z.of_nat k)%Z) ->
  exists e, simulate_history now draw base i n = inl e.
Proof.
  revert base i. induction n as [| n IH]; intros base i [k [Hk O]];
    [lia |].
  cbn [simulate_history].
  destruct (datetime.minus_days (now i) (Z.of_nat i)) as [e | d] eqn:M;
    [exists e; reflexivity |].
  cbn [bind ret Monad_either].
  destruct (Nat.eq_dec k i) as [-> | Hne].
  - rewrite minus_days_before_year_one in M by exact O. discriminate.
  - destruct (IH (base * (1 + draw i)) (S i)) as [e E].
    { exists k. split; [lia | exact O]. }
    rewrite E. exists e. reflexivity.
Qed.

(** ** Histories of zeros *)

Lemma zero_not_nan (v : float) : (v =? 0) = true -> Float.isnan v = false.
Proof.
  intros Z. destruct (zero_spec v Z) as [s E].
  unfold Float.isnan, is_nan. rewrite FloatAxioms.eqb_spec, E.
  reflexivity.
Qed.

Lemma zero_over_zero (v w : float) :
  (v =? 0) = true -> (w =? 0) = true -> w / v - 1 = nan.
Proof.
  intros Zv Zw.
  destruct (zero_spec v Zv) as [sv Ev]. destruct (zero_spec w Zw) as [sw Ew].
  assert (H : w / v = nan).
  { rewrite <- (SF2Prim_Prim2SF (w / v)), div_spec, Ev, Ew. reflexivity. }
  rewrite H. reflexivity.
Qed.

Lemma simple_returns_of_zeros (vs : list float) :
  Forall (fun v => (v =? 0) = true) vs ->
  filter Float.finite (simple_returns vs) = [].
Proof.
  induction 1 as [| v vs Hv Hvs IH]; [reflexivity |].
  destruct vs as [| w vs']; [reflexivity |].
  change (simple_returns (v :: w :: vs'))
    with ((w / v - 1) :: simple_returns (w :: vs')).
  inversion Hvs; subst.
  rewrite (zero_over_zero v w) by assumption.
  exact IH.
Qed.

(** A history of zero valuations has no usable return. *)
Lemma return_series_of_zeros (pad : bool) (h : list HistoryPoint) :
  Forall (fun v => (v =? 0) = true) (map value h) ->
  return_series pad h = [].
Proof.
  intros Z. rewrite return_series_filter, pct_change_no_nan.
  - destruct (map value h) as [| v tl]; [reflexivity |].
    rewrite pct_change_unfilled.
    change (filter Float.finite (nan :: simple_returns (v :: tl)))
      with (filter Float.finite (simple_returns (v :: tl))).
    apply simple_returns_of_zeros. exact Z.
  - intros _. eapply Forall_impl; [| exact Z].
    intros v. apply zero_not_nan.
Qed.

(** ** What the calculator returns, for the endpoints *)

Lemma calculate_all_finite (pad : bool) (sk ku : list float -> float)
    (p : Portfolio) (h : list HistoryPoint) :
  all_finite (calculate_portfolio_metrics pad sk ku p h) = true
  /\ portfolio_id (calculate_portfolio_metrics pad sk ku p h) = id p.
Proof.
  destruct (Nat.lt_ge_cases (length (return_series pad h)) 2) as [H | H].
  - rewrite calculate_degenerate by exact H. split; reflexivity.
  - rewrite calculate_normal by exact H.
    split; [apply normal_metrics_finite | reflexivity].
Qed.

Lemma calculate_without_returns (pad : bool) (sk ku : list float -> float)
    (p : Portfolio) (h : list HistoryPoint) :
  length (return_series pad h) < 2 ->
  all_zero (calculate_portfolio_metrics pad sk ku p h)
  /\ portfolio_id (calculate_portfolio_metrics pad sk ku p h) = id p.
Proof.
  intros H. rewrite calculate_degenerate by exact H.
  unfold all_zero. repeat split; reflexivity.
Qed.

Lemma fst_cache_get (V : Type) (now : float) (key : string)
    (store : cache_store V) :
  fst (cache_get now key store)
  = match dict_get key store with
    | Some (data, expiry) => if now <? expiry then Some data else None
    | None => None
    end.
Proof.
  unfold cache_get.
  destruct (dict_get key store) as [[data expiry] |]; [| reflexivity].
  destruct (now <? expiry); reflexivity.
Qed.

Lemma cache_get_fresh (V : Type) (t0 t1 : float) (key : string) (value : V)
    (expire : nat) (store : cache_store V) :
  (t1 <? t0 + Float.of_nat expire) = true ->
  cache_get t1 key (cache_set t0 key value expire store)
  = (Some value, cache_set t0 key value expire store).
Proof.
  intros H. unfold cache_get, cache_set.
  rewrite dict_get_set_same, H. reflexivity.
Qed.

(** ** The totals of the dashboard *)

Lemma floats_clean_finite (data : pyval) :
  Forall (fun f => Float.finite f = true) (floats (clean_data_for_json data)).
Proof.
  rewrite floats_clean. apply Forall_forall. intros f Hin.
  apply in_map_iff in Hin. destruct Hin as [x [E _]]. subst f.
  apply safe_float_finite, finite_zero.
Qed.

Section DashboardFacts.

Variable sfl : list pyval -> float -> sum error float.


Lemma sum_portfolios_step (p : pyval) (rest : list pyval) (a b : float) :
  sum_portfolios sfl (p :: rest) a b
  = match document_numbers sfl p with
    | inl e => inl e
    | inr (value, risk) => sum_portfolios sfl rest (a + value) (b + risk)
    end.
Proof.
  unfold document_numbers. cbn [sum_portfolios].
  destruct (py_get p "total_value_usd" (PyInt 0)) as [e | v]; cbn;
    [reflexivity |].
  destruct (safe_float_any sfl v 0) as [e | x]; cbn; [reflexivity |].
  destruct (py_get p "risk_score" (PyInt 0)) as [e | r]; cbn;
    [reflexivity |].
  destruct (safe_float_any sfl r 0) as [e | y]; reflexivity.
Qed.



Lemma sum_portfolios_fails (portfolios : list pyval) (p : pyval) (e : error)
    (a b : float) :
  In p portfolios ->
  document_numbers sfl p = inl e ->
  exists e', sum_portfolios sfl portfolios a b = inl e'.
Proof.
  intros Hin E. revert a b.
  induction portfolios as [| p0 rest IH]; intros a b; [contradiction |].
  rewrite sum_portfolios_step.
  destruct (document_numbers sfl p0) as [e0 | [v r]] eqn:E0; [eauto |].
  destruct Hin as [-> | Hin]; [congruence |].
  apply IH. exact Hin.
Qed.

Lemma document_numbers_not_a_number (entries : list (string * pyval))
    (key : string) (v : pyval) :
  key = "total_value_usd"%string \/ key = "risk_score"%string ->
  assoc key entries = Some v ->
  not_a_number v = true ->
  exists e, document_numbers sfl (PyDict entries) = inl e.
Proof.
  intros K A N. unfold document_numbers. cbn [py_get bind ret Monad_either].
  assert (Bad : safe_float_any sfl v 0 = inl NotANumber)
    by (destruct v; try discriminate; reflexivity).
  destruct K as [-> | ->].
  - rewrite A. cbv iota beta.
    destruct (safe_float_any sfl v 0) as [e | x]; [eauto | discriminate].
  - destruct (safe_float_any sfl
                match assoc "total_value_usd" entries with
                | Some v0 => v0
                | None => PyInt 0
                end 0) as [e | x]; [eauto |].
    rewrite A. cbv iota beta.
    destruct (safe_float_any sfl v 0) as [e | y]; [eauto | discriminate].
Qed.

End DashboardFacts.

(** ** The monitoring pass *)

Lemma monitor_pass_appends (format_1f : float -> string)
    (portfolios : list (sum error StoredPortfolio))
    (insert_error : Alert.t -> bool) (alerts : list Alert.t) :
  monitor_pass format_1f portfolios insert_error alerts
  = alerts ++ new_alerts format_1f portfolios insert_error.
Proof.
  unfold new_alerts. revert alerts.
  induction portfolios as [| pd rest IH]; intros alerts.
  - simpl. rewrite app_nil_r. reflexivity.
  - cbn [monitor_pass flat_map]. destruct pd as [e | stored].
    + apply IH.
    + destruct (80 <? risk_score stored); cbn [andb].
      * destruct (insert_error (high_risk_alert format_1f stored));
          cbn [negb]; rewrite IH; [reflexivity |].
        rewrite <- app_assoc. reflexivity.
      * apply IH.
Qed.

Lemma new_alerts_filter (format_1f : float -> string)
    (portfolios : list (sum error StoredPortfolio))
    (insert_error : Alert.t -> bool) :
  new_alerts format_1f portfolios insert_error
  = map (high_risk_alert format_1f)
      (filter (fun stored =>
                 (80 <? risk_score stored)
                 && negb (insert_error (high_risk_alert format_1f stored)))
         (valid_documents portfolios)).
Proof.
  unfold new_alerts, valid_documents.
  induction portfolios as [| pd rest IH]; [reflexivity |].
  cbn [flat_map]. rewrite filter_app, map_app, <- IH.
  destruct pd as [e | stored]; [reflexivity |].
  cbn [filter].
  destruct ((80 <? risk_score stored)
            && negb (insert_error (high_risk_alert format_1f stored)));
    reflexivity.
Qed.

(** * The claims *)

(** ** Finite output, and the insufficient-history path *)

(** C1: for every portfolio and every valuation series, each of the eight
    float fields of the record the calculator returns (value_at_risk,
    conditional_var, max_drawdown, sharpe_ratio, sortino_ratio, volatility,
    skewness, kurtosis) is finite: neither NaN nor an infinity.  This holds
    whatever [pct_change] does with missing valuations and whatever the
    skewness and kurtosis estimators return. *)
Theorem metrics_always_finite (pad : bool) (sk ku : list float -> float)
    (p : Portfolio) (h : list HistoryPoint) :
  all_finite (calculate_portfolio_metrics pad sk ku p h) = true.
Proof.
  destruct (Nat.lt_ge_cases (length (return_series pad h)) 2) as [H | H].
  - rewrite calculate_degenerate by exact H. reflexivity.
  - rewrite calculate_normal by exact H. apply normal_metrics_finite.
Qed.

(** C2: when the valuation series is empty or has one point, or when
    fewer than two returns survive the removal of the non-finite ones, the
    try block completes without an exception and the calculator returns,
    for the portfolio it was given, the record whose eight metric fields
    are exactly 0.0. *)
Theorem insufficient_history_zero_record (pad : bool)
    (sk ku : list float -> float) (p : Portfolio) (h : list HistoryPoint) :
  length h < 2 \/ length (return_series pad h) < 2 ->
  try_block pad sk ku p h = inr (calculate_portfolio_metrics pad sk ku p h)
  /\ portfolio_id (calculate_portfolio_metrics pad sk ku p h) = id p
  /\ all_zero (calculate_portfolio_metrics pad sk ku p h).
Proof.
  intros H.
  assert (Hr : length (return_series pad h) < 2).
  { destruct H as [H | H]; [| exact H].
    rewrite return_series_short by exact H. simpl. lia. }
  rewrite calculate_degenerate by exact Hr.
  rewrite try_block_degenerate by exact Hr.
  unfold all_zero. repeat split; reflexivity.
Qed.

(** The series [100, 0, 50]: the return through the zero valuation is
    infinite and removed, one return is left. *)
Lemma insufficient_history_zero_record_witness :
  (length one_crossing < 2
   \/ length (return_series true one_crossing) < 2)
  /\ all_zero
       (calculate_portfolio_metrics true unspecified_estimator
          unspecified_estimator (portfolio_worth 1010)
          one_crossing).
Proof.
  assert (H : length one_crossing < 2
              \/ length (return_series true one_crossing) < 2).
  { right. vm_compute. lia. }
  split; [exact H |].
  apply (insufficient_history_zero_record true unspecified_estimator
           unspecified_estimator (portfolio_worth 1010)
           one_crossing H).
Defined.

(** ** The return-series builder *)

(** C3, as amended: for every valuation series none of whose valuations
    is missing (NaN), the return series the calculator works on is the
    sequence of simple returns [v_i / v_{i-1} - 1] of consecutive
    valuations, in order, with every NaN or infinite return removed and
    nothing put in its place; the first valuation contributes no return,
    so a series of [n] valuations yields [n - 1] returns less the
    non-finite ones, and every statistic of the normal path is computed
    from the returns that remain.  Where [pct_change] does not
    forward-fill, the same holds for every series; where it does, a
    missing valuation takes the last valuation before it, and the returns
    are in every case the finite simple returns of the series so
    filled. *)
Theorem return_series_simple_returns (pad : bool) (h : list HistoryPoint) :
  return_series pad h
  = filter Float.finite
      (simple_returns (if pad then pd.ffill (map value h) else map value h))
  /\ ((pad = true -> Forall (fun v => Float.isnan v = false) (map value h)) ->
      return_series pad h
      = filter Float.finite (simple_returns (map value h))
      /\ length (simple_returns (map value h)) = (length h - 1)%nat
      /\ length (return_series pad h)
         = (length h - 1
            - length (filter (fun r => negb (Float.finite r))
                        (simple_returns (map value h))))%nat
      /\ forall (sk ku : list float -> float) (p : Portfolio),
           2 <= length (return_series pad h) ->
           calculate_portfolio_metrics pad sk ku p h
           = normal_metrics sk ku p
               (filter Float.finite (simple_returns (map value h)))).
Proof.
  split; [apply return_series_filled |].
  intros Hnum.
  assert (E : return_series pad h
              = filter Float.finite (simple_returns (map value h))).
  { rewrite return_series_filter, pct_change_no_nan by exact Hnum.
    destruct (map value h) as [| v tl]; [reflexivity |].
    rewrite pct_change_unfilled. reflexivity. }
  assert (L : length (simple_returns (map value h)) = (length h - 1)%nat).
  { rewrite simple_returns_length, length_map. reflexivity. }
  split; [exact E |]. split; [exact L |]. split.
  - rewrite E, <- L.
    pose proof (filter_length Float.finite (simple_returns (map value h))).
    lia.
  - intros sk ku p H. rewrite calculate_normal by exact H.
    rewrite E. reflexivity.
Qed.

(** Six valuations with two zeros in a row: of the five returns, the two
    infinite ones and the NaN one are removed. *)
Lemma return_series_simple_returns_witness :
  Forall (fun v => Float.isnan v = false) (map value zero_crossings)
  /\ return_series true zero_crossings = [-1; -1]
  /\ length (return_series true zero_crossings)
     = (length zero_crossings - 1
        - length (filter (fun r => negb (Float.finite r))
                    (simple_returns
                       (map value zero_crossings))))%nat.
Proof.
  assert (Hnum : Forall (fun v => Float.isnan v = false)
                   (map value zero_crossings))
    by (repeat constructor).
  destruct (proj2 (return_series_simple_returns true zero_crossings)
              (fun _ => Hnum)) as [E [_ [L _]]].
  split; [exact Hnum |].
  split; [rewrite E; reflexivity | exact L].
Defined.

(** C3 fails as stated: [pct_change] forward-fills a missing valuation
    before it takes the returns.  Of the valuations 1, NaN, 2 both simple
    returns are NaN and none would remain; the calculator works on the two
    returns 0 and 1, taken from the filled series 1, 1, 2. *)
Lemma missing_valuation_is_forward_filled :
  simple_returns (map value missing_valuation) = [nan; nan]
  /\ return_series true missing_valuation = [0; 1]
  /\ return_series true missing_valuation
     <> filter Float.finite (simple_returns (map value missing_valuation))
  /\ length (return_series true missing_valuation)
     <> (length missing_valuation - 1
         - length (filter (fun r => negb (Float.finite r))
                     (simple_returns (map value missing_valuation))))%nat.
Proof.
  split; [reflexivity |]. split; [reflexivity |].
  split; vm_compute; discriminate.
Qed.

(** ** No exception reaches the caller *)

(** C4: for every portfolio and every valuation series the try block
    itself completes with a record, no exception being raised on the way:
    the only division that can raise is guarded by a positive
    denominator.  The calculator returns that record, filled in for the
    portfolio it was given; its handler is never needed. *)
Theorem calculator_never_raises (pad : bool) (sk ku : list float -> float)
    (p : Portfolio) (h : list HistoryPoint) :
  exists m : RiskMetrics,
    try_block pad sk ku p h = inr m
    /\ calculate_portfolio_metrics pad sk ku p h = m
    /\ portfolio_id m = id p
    /\ all_finite m = true.
Proof.
  exists (calculate_portfolio_metrics pad sk ku p h).
  destruct (Nat.lt_ge_cases (length (return_series pad h)) 2) as [H | H].
  - rewrite calculate_degenerate, try_block_degenerate by exact H.
    repeat split; reflexivity.
  - rewrite calculate_normal, try_block_normal by exact H.
    repeat split; try reflexivity. apply normal_metrics_finite.
Qed.

(** ** The risk-free rate *)

(** C5, as amended: the calculator takes a portfolio and a valuation
    history and nothing else; the risk-free rate is the local constant
    [risk_free_rate = 0.02], so that on every series of at least two
    returns the Sharpe and Sortino ratios it returns are those of a 2%
    rate. *)
Theorem risk_free_rate_is_two_percent (pad : bool)
    (sk ku : list float -> float) (p : Portfolio) (h : list HistoryPoint) :
  2 <= length (return_series pad h) ->
  sharpe_ratio (calculate_portfolio_metrics pad sk ku p h)
  = sharpe_at_rate 0.02 (return_series pad h)
  /\ sortino_ratio (calculate_portfolio_metrics pad sk ku p h)
     = sortino_at_rate 0.02 (return_series pad h).
Proof.
  intros H. rewrite calculate_normal by exact H.
  split; reflexivity.
Qed.

Lemma risk_free_rate_is_two_percent_witness :
  2 <= length (return_series true scenario)
  /\ sharpe_ratio
       (calculate_portfolio_metrics true unspecified_estimator
          unspecified_estimator (portfolio_worth 1010) scenario)
     = sharpe_at_rate 0.02 (return_series true scenario).
Proof.
  assert (H : 2 <= length (return_series true scenario))
    by (vm_compute; lia).
  split; [exact H |].
  apply (risk_free_rate_is_two_percent true unspecified_estimator
           unspecified_estimator (portfolio_worth 1010) scenario H).
Defined.

(** C5 fails as stated: on the end-to-end scenario the Sharpe ratio the
    calculator returns (1.36...) is not the Sharpe ratio at a rate of
    5% (1.30...), and the calculator has no argument through which a
    caller could ask for it. *)
Lemma sharpe_ignores_five_percent :
  sharpe_ratio
    (calculate_portfolio_metrics true unspecified_estimator
       unspecified_estimator (portfolio_worth 1010) scenario)
  <> sharpe_at_rate 0.05 (return_series true scenario).
Proof. floats_differ (fun v => v <? 1.33). Qed.

(** ** Volatility *)

(** C6, as amended: on every series of at least two returns the
    volatility is the population standard deviation of the returns
    (numpy's default, divisor [n]) times [sqrt(252)], when that product is
    finite, and 0.0 when it is not. *)
Theorem volatility_is_population_std (pad : bool)
    (sk ku : list float -> float) (p : Portfolio) (h : list HistoryPoint) :
  2 <= length (return_series pad h) ->
  np.std (return_series pad h)
  = sqrt (np.sum (map (fun r => (r - np.mean (return_series pad h))
                                * (r - np.mean (return_series pad h)))
                    (return_series pad h))
          / Float.of_nat (length (return_series pad h)))
  /\ (Float.finite (np.std (return_series pad h) * sqrt 252) = true ->
      volatility (calculate_portfolio_metrics pad sk ku p h)
      = np.std (return_series pad h) * sqrt 252)
  /\ (Float.finite (np.std (return_series pad h) * sqrt 252) = false ->
      volatility (calculate_portfolio_metrics pad sk ku p h) = 0).
Proof.
  intros H. rewrite calculate_normal by exact H.
  cbn [volatility normal_metrics]. unfold annualized_std.
  split; [apply std_unfold |].
  split; intros F.
  - apply safe_float_of_finite. exact F.
  - apply safe_float_of_non_finite. exact F.
Qed.

Lemma volatility_is_population_std_witness :
  2 <= length (return_series true scenario)
  /\ volatility
       (calculate_portfolio_metrics true unspecified_estimator
          unspecified_estimator (portfolio_worth 1010) scenario)
     = np.std (return_series true scenario) * sqrt 252.
Proof.
  assert (H : 2 <= length (return_series true scenario))
    by (vm_compute; lia).
  split; [exact H |].
  apply (volatility_is_population_std true unspecified_estimator
           unspecified_estimator (portfolio_worth 1010) scenario H).
  vm_compute. reflexivity.
Defined.

(** C6 fails as stated: on the end-to-end scenario the volatility
    (0.5608...) is not the sample standard deviation times [sqrt(252)]
    (0.6475...). *)
Lemma volatility_is_not_sample_std :
  volatility
    (calculate_portfolio_metrics true unspecified_estimator
       unspecified_estimator (portfolio_worth 1010) scenario)
  <> sample_std (return_series true scenario) * sqrt 252.
Proof. floats_differ (fun v => v <? 0.6). Qed.

(** ** The Sharpe ratio *)

(** C7, as amended: on every series of at least two returns, the Sharpe
    ratio is the quotient (annualized mean return - 0.02) / volatility,
    passed through the normalizer, when the volatility is positive, and
    exactly 0.0 when the volatility is zero.  When the standard deviation
    of the returns evaluates to zero, volatility and Sharpe ratio are both
    0.0; a constant series need not be such a series. *)
Theorem sharpe_ratio_zero_guard (pad : bool) (sk ku : list float -> float)
    (p : Portfolio) (h : list HistoryPoint) :
  2 <= length (return_series pad h) ->
  ((0 <? volatility (calculate_portfolio_metrics pad sk ku p h)) = true ->
   sharpe_ratio (calculate_portfolio_metrics pad sk ku p h)
   = safe_float
       ((annualized_mean (return_series pad h) - 0.02)
        / volatility (calculate_portfolio_metrics pad sk ku p h)) 0)
  /\ ((volatility (calculate_portfolio_metrics pad sk ku p h) =? 0) = true ->
      sharpe_ratio (calculate_portfolio_metrics pad sk ku p h) = 0)
  /\ (np.std (return_series pad h) = 0 ->
      volatility (calculate_portfolio_metrics pad sk ku p h) = 0
      /\ sharpe_ratio (calculate_portfolio_metrics pad sk ku p h) = 0).
Proof.
  intros H. rewrite calculate_normal by exact H.
  cbn [volatility sharpe_ratio normal_metrics]. unfold guarded_ratio.
  split; [| split].
  - intros L. rewrite L. reflexivity.
  - intros E. rewrite (zero_not_positive _ E). reflexivity.
  - intros E. unfold annualized_std. rewrite E. split; reflexivity.
Qed.

Lemma sharpe_ratio_zero_guard_witness :
  2 <= length (return_series true tripling)
  /\ volatility
       (calculate_portfolio_metrics true unspecified_estimator
          unspecified_estimator (portfolio_worth 1010) tripling) = 0
  /\ sharpe_ratio
       (calculate_portfolio_metrics true unspecified_estimator
          unspecified_estimator (portfolio_worth 1010) tripling) = 0.
Proof.
  assert (H : 2 <= length (return_series true tripling))
    by (vm_compute; lia).
  split; [exact H |].
  apply (sharpe_ratio_zero_guard true unspecified_estimator
           unspecified_estimator (portfolio_worth 1010) tripling H).
  vm_compute. reflexivity.
Defined.

(** C7 fails as stated: the valuations 1000, 1700, 2890, 4913 have three
    identical returns of 0.7, whose floating-point mean is not 0.7; the
    volatility is 1.76e-15, not 0, and the Sharpe ratio is 1.0e17. *)
Lemma constant_returns_positive_volatility :
  return_series true steady_growth = [0.7; 0.7; 0.7]
  /\ volatility
       (calculate_portfolio_metrics true unspecified_estimator
          unspecified_estimator (portfolio_worth 1010) steady_growth) <> 0
  /\ sharpe_ratio
       (calculate_portfolio_metrics true unspecified_estimator
          unspecified_estimator (portfolio_worth 1010) steady_growth) <> 0.
Proof.
  split; [vm_compute; reflexivity |].
  split; floats_differ (fun v => 0 <? v).
Qed.

(** ** Conditional value at risk *)

(** C8, as amended: on every series of at least two returns,
    conditional_var is the absolute value of (the mean of the returns at
    or below the linearly interpolated 5th percentile, times the total
    value of the portfolio) when that product is finite, and 0.0 when it
    is not finite or when no return lies at or below the percentile. *)
Theorem conditional_var_is_tail_mean (pad : bool)
    (sk ku : list float -> float) (p : Portfolio) (h : list HistoryPoint) :
  2 <= length (return_series pad h) ->
  (tail_returns (return_series pad h) = [] ->
   conditional_var (calculate_portfolio_metrics pad sk ku p h) = 0)
  /\ (tail_returns (return_series pad h) <> [] ->
      Float.finite (np.mean (tail_returns (return_series pad h))
                    * total_value_usd p) = true ->
      conditional_var (calculate_portfolio_metrics pad sk ku p h)
      = abs (np.mean (tail_returns (return_series pad h))
             * total_value_usd p))
  /\ (tail_returns (return_series pad h) <> [] ->
      Float.finite (np.mean (tail_returns (return_series pad h))
                    * total_value_usd p) = false ->
      conditional_var (calculate_portfolio_metrics pad sk ku p h) = 0).
Proof.
  intros H. rewrite calculate_normal by exact H.
  cbn [conditional_var normal_metrics].
  split; [| split].
  - intros E. rewrite E. reflexivity.
  - intros N F. destruct (tail_returns (return_series pad h));
      [contradiction |].
    cbn [length Nat.ltb Nat.leb].
    rewrite safe_float_of_finite by exact F. reflexivity.
  - intros N F. destruct (tail_returns (return_series pad h));
      [contradiction |].
    cbn [length Nat.ltb Nat.leb].
    rewrite safe_float_of_non_finite by exact F. reflexivity.
Qed.

Lemma conditional_var_is_tail_mean_witness :
  2 <= length (return_series true scenario)
  /\ conditional_var
       (calculate_portfolio_metrics true unspecified_estimator
          unspecified_estimator (portfolio_worth 1010) scenario)
     = abs (np.mean (tail_returns (return_series true scenario))
            * total_value_usd (portfolio_worth 1010)).
Proof.
  assert (H : 2 <= length (return_series true scenario))
    by (vm_compute; lia).
  split; [exact H |].
  apply (conditional_var_is_tail_mean true unspecified_estimator
           unspecified_estimator (portfolio_worth 1010) scenario H).
  - vm_compute. discriminate.
  - vm_compute. reflexivity.
Defined.

(** C8 fails as stated: for a portfolio worth 1e308 whose valuations
    triple twice, both returns (2.0) lie at the 5th percentile, their mean
    times the total value overflows, and conditional_var is 0.0, not the
    absolute value of that product. *)
Lemma conditional_var_overflow :
  conditional_var
    (calculate_portfolio_metrics true unspecified_estimator
       unspecified_estimator (portfolio_worth 1e308) tripling)
  <> abs (np.mean (tail_returns (return_series true tripling))
          * total_value_usd (portfolio_worth 1e308)).
Proof. floats_differ (fun v => v =? 0). Qed.

(** ** The sanitizer *)

(** C9: the sanitizer is idempotent: [safe_float] for every float and
    every default, [clean_data_for_json] for every value.  It is the
    identity on finite floats, on scalars that are not floats, and on any
    structure whose floats are all finite; it goes through every element
    of a list and every value of a dict, and the only thing it changes is
    a NaN or infinite float, which becomes the default ([0.0] inside
    [clean_data_for_json]). *)
Theorem sanitize_idempotent_and_selective :
  (forall value default : float,
     safe_float (safe_float value default) default = safe_float value default)
  /\ (forall value default : float,
        Float.finite value = true -> safe_float value default = value)
  /\ (forall value default : float,
        Float.finite value = false -> safe_float value default = default)
  /\ (forall data : pyval,
        clean_data_for_json (clean_data_for_json data)
        = clean_data_for_json data)
  /\ (forall data : pyval,
        non_numeric_scalar data = true -> clean_data_for_json data = data)
  /\ (forall data : pyval,
        Forall (fun f => Float.finite f = true) (floats data) ->
        clean_data_for_json data = data)
  /\ (forall items : list pyval,
        clean_data_for_json (PyList items)
        = PyList (map clean_data_for_json items))
  /\ (forall entries : list (string * pyval),
        clean_data_for_json (PyDict entries)
        = PyDict (map (fun kv => (fst kv, clean_data_for_json (snd kv)))
                    entries))
  /\ (forall data : pyval,
        floats (clean_data_for_json data)
        = map (fun f => safe_float f 0) (floats data)).
Proof.
  repeat split.
  - apply safe_float_idempotent.
  - apply safe_float_of_finite.
  - apply safe_float_of_non_finite.
  - apply clean_data_for_json_idempotent.
  - apply clean_of_scalar.
  - apply clean_of_finite.
  - apply floats_clean.
Qed.

(** ** Skewness and kurtosis of tiny samples *)

(** C10: with exactly two usable returns [Series.skew()] is NaN, and with
    two or three [Series.kurtosis()] is NaN; the normalizer turns each
    into 0.0.  So the skewness field is exactly 0.0 below three returns
    (below two, by the insufficient-history path) and the kurtosis field
    is exactly 0.0 below four. *)
Theorem tiny_sample_shape_is_zero (pad : bool) (sk ku : list float -> float)
    (p : Portfolio) (h : list HistoryPoint) :
  length (return_series pad h) < 4 ->
  kurtosis (calculate_portfolio_metrics pad sk ku p h) = 0
  /\ (length (return_series pad h) < 3 ->
      skewness (calculate_portfolio_metrics pad sk ku p h) = 0)
  /\ (length (return_series pad h) = 2%nat ->
      skew sk (return_series pad h) = nan
      /\ skewness (calculate_portfolio_metrics pad sk ku p h) = 0)
  /\ (2 <= length (return_series pad h) ->
      kurt ku (return_series pad h) = nan).
Proof.
  intros H4.
  assert (K : (length (return_series pad h) <? 4)%nat = true)
    by (apply Nat.ltb_lt; exact H4).
  destruct (Nat.lt_ge_cases (length (return_series pad h)) 2) as [H | H].
  - rewrite calculate_degenerate by exact H.
    split; [reflexivity |]. split; [reflexivity |].
    split; [lia |]. lia.
  - rewrite calculate_normal by exact H.
    cbn [kurtosis skewness normal_metrics]. unfold kurt, skew. rewrite K.
    split; [reflexivity |].
    split; [| split].
    + intros H3. apply Nat.ltb_lt in H3. rewrite H3. reflexivity.
    + intros E. rewrite E. split; reflexivity.
    + reflexivity.
Qed.

Lemma tiny_sample_shape_is_zero_witness :
  length (return_series true tripling) < 4
  /\ kurtosis
       (calculate_portfolio_metrics true unspecified_estimator
          unspecified_estimator (portfolio_worth 1010) tripling) = 0.
Proof.
  assert (H : length (return_series true tripling) < 4)
    by (vm_compute; lia).
  split; [exact H |].
  exact (proj1 (tiny_sample_shape_is_zero true unspecified_estimator
                  unspecified_estimator (portfolio_worth 1010) tripling H)).
Defined.

(** * Further properties *)

(** ** Of the calculator *)

(** X1: the four loss and dispersion figures the calculator returns,
    value_at_risk, conditional_var, max_drawdown and volatility, are never
    negative, whatever the portfolio and the history. *)
Theorem loss_figures_nonnegative (pad : bool) (sk ku : list float -> float)
    (p : Portfolio) (h : list HistoryPoint) :
  (0 <=? value_at_risk (calculate_portfolio_metrics pad sk ku p h)) = true
  /\ (0 <=? conditional_var (calculate_portfolio_metrics pad sk ku p h))
     = true
  /\ (0 <=? max_drawdown (calculate_portfolio_metrics pad sk ku p h)) = true
  /\ (0 <=? volatility (calculate_portfolio_metrics pad sk ku p h)) = true.
Proof.
  destruct (Nat.lt_ge_cases (length (return_series pad h)) 2) as [H | H].
  - rewrite calculate_degenerate by exact H. repeat split; reflexivity.
  - rewrite calculate_normal by exact H.
    cbn [value_at_risk conditional_var max_drawdown volatility
         normal_metrics].
    repeat split; try apply abs_safe_float_nonneg.
    apply annualized_std_nonneg.
Qed.

(** X2: when no return of the series is negative there is no downside
    deviation, and the Sortino ratio is exactly 0.0. *)
Theorem sortino_zero_without_losses (pad : bool)
    (sk ku : list float -> float) (p : Portfolio) (h : list HistoryPoint) :
  Forall (fun r => (r <? 0) = false) (return_series pad h) ->
  sortino_ratio (calculate_portfolio_metrics pad sk ku p h) = 0.
Proof.
  intros Hpos.
  assert (E : filter (fun r => r <? 0) (return_series pad h) = []).
  { induction Hpos as [| r l Hr _ IH]; [reflexivity |].
    cbn [filter]. rewrite Hr. exact IH. }
  destruct (Nat.lt_ge_cases (length (return_series pad h)) 2) as [H | H].
  - rewrite calculate_degenerate by exact H. reflexivity.
  - rewrite calculate_normal by exact H.
    cbn [sortino_ratio normal_metrics]. unfold downside_deviation.
    rewrite E. reflexivity.
Qed.

Lemma sortino_zero_without_losses_witness :
  Forall (fun r => (r <? 0) = false) (return_series true tripling)
  /\ sortino_ratio
       (calculate_portfolio_metrics true unspecified_estimator
          unspecified_estimator (portfolio_worth 1010) tripling) = 0.
Proof.
  assert (H : Forall (fun r => (r <? 0) = false)
                (return_series true tripling))
    by (repeat constructor).
  split; [exact H |].
  apply (sortino_zero_without_losses true unspecified_estimator
           unspecified_estimator (portfolio_worth 1010) tripling H).
Defined.

(** X3: for a portfolio whose total value is zero, value_at_risk and
    conditional_var are exactly 0.0 on every history. *)
Theorem worthless_portfolio_has_no_value_at_risk (pad : bool)
    (sk ku : list float -> float) (p : Portfolio) (h : list HistoryPoint) :
  (total_value_usd p =? 0) = true ->
  value_at_risk (calculate_portfolio_metrics pad sk ku p h) = 0
  /\ conditional_var (calculate_portfolio_metrics pad sk ku p h) = 0.
Proof.
  intros Z.
  destruct (Nat.lt_ge_cases (length (return_series pad h)) 2) as [H | H].
  - rewrite calculate_degenerate by exact H. split; reflexivity.
  - rewrite calculate_normal by exact H.
    cbn [value_at_risk conditional_var normal_metrics].
    split; [apply abs_safe_float_times_zero; exact Z |].
    destruct (0 <? length (tail_returns (return_series pad h)))%nat.
    + apply abs_safe_float_times_zero. exact Z.
    + reflexivity.
Qed.

Lemma worthless_portfolio_has_no_value_at_risk_witness :
  (total_value_usd (portfolio_worth 0) =? 0) = true
  /\ value_at_risk
       (calculate_portfolio_metrics true unspecified_estimator
          unspecified_estimator (portfolio_worth 0) scenario) = 0.
Proof.
  assert (H : (total_value_usd (portfolio_worth 0) =? 0) = true)
    by reflexivity.
  split; [exact H |].
  exact (proj1 (worthless_portfolio_has_no_value_at_risk true
                  unspecified_estimator unspecified_estimator
                  (portfolio_worth 0) scenario H)).
Defined.

(** X4: a history of fewer than three valuations has fewer than two
    returns, whatever the valuations are, and gets the all-zero record. *)
Theorem short_history_zero_record (pad : bool) (sk ku : list float -> float)
    (p : Portfolio) (h : list HistoryPoint) :
  length h < 3 ->
  length (return_series pad h) < 2
  /\ all_zero (calculate_portfolio_metrics pad sk ku p h).
Proof.
  intros H. pose proof (return_series_length pad h) as L.
  assert (Hr : length (return_series pad h) < 2) by lia.
  split; [exact Hr |].
  rewrite calculate_degenerate by exact Hr.
  unfold all_zero. repeat split; reflexivity.
Qed.

Lemma short_history_zero_record_witness :
  length (history_of [1000; 1020]) < 3
  /\ all_zero
       (calculate_portfolio_metrics true unspecified_estimator
          unspecified_estimator (portfolio_worth 1010)
          (history_of [1000; 1020])).
Proof.
  assert (H : length (history_of [1000; 1020]) < 3) by (simpl; lia).
  split; [exact H |].
  exact (proj2 (short_history_zero_record true unspecified_estimator
                  unspecified_estimator (portfolio_worth 1010)
                  (history_of [1000; 1020]) H)).
Defined.

(** X5: the calculator reads nothing of the history but the valuations:
    two histories with the same values in the same order, whatever their
    dates, get the same record. *)
Theorem dates_are_ignored (pad : bool) (sk ku : list float -> float)
    (p : Portfolio) (h h' : list HistoryPoint) :
  map value h = map value h' ->
  calculate_portfolio_metrics pad sk ku p h
  = calculate_portfolio_metrics pad sk ku p h'.
Proof.
  intros E.
  assert (R : return_series pad h = return_series pad h')
    by (rewrite !return_series_filter, E; reflexivity).
  destruct (Nat.lt_ge_cases (length (return_series pad h)) 2) as [H | H].
  - rewrite (calculate_degenerate pad sk ku p h H).
    rewrite R in H. rewrite (calculate_degenerate pad sk ku p h' H).
    reflexivity.
  - rewrite (calculate_normal pad sk ku p h H).
    rewrite R in H. rewrite (calculate_normal pad sk ku p h' H), R.
    reflexivity.
Qed.

Lemma dates_are_ignored_witness :
  map value scenario
  = map value (map (fun x => {| date := 7; value := value x |}) scenario)
  /\ calculate_portfolio_metrics true unspecified_estimator
       unspecified_estimator (portfolio_worth 1010) scenario
     = calculate_portfolio_metrics true unspecified_estimator
         unspecified_estimator (portfolio_worth 1010)
         (map (fun x => {| date := 7; value := value x |}) scenario).
Proof.
  assert (H : map value scenario
              = map value
                  (map (fun x => {| date := 7; value := value x |})
                     scenario))
    by reflexivity.
  split; [exact H |].
  apply (dates_are_ignored true unspecified_estimator
           unspecified_estimator (portfolio_worth 1010) _ _ H).
Defined.

(** ** Of the sanitizer *)

(** X6: after [clean_data_for_json] no float at any depth of the value is
    NaN or infinite, and nothing else has changed: the nesting, the keys
    and their order, the lengths of the lists and every scalar that is not
    a float are those of the input. *)
Theorem cleaned_data_is_finite_and_same_shape (data : pyval) :
  Forall (fun f => Float.finite f = true) (floats (clean_data_for_json data))
  /\ erase_floats (clean_data_for_json data) = erase_floats data.
Proof.
  split; [apply floats_clean_finite | apply erase_floats_clean].
Qed.

(** ** Of the response cache *)

(** X7: what [cache_set] stored under a key is what [cache_get] returns
    for that key as long as the clock reads less than the time of the
    store plus the expiry, and the cache is left as it is. *)
Theorem cached_data_is_returned_until_expiry (V : Type) (t0 t1 : float)
    (key : string) (value : V) (expire : nat) (store : cache_store V) :
  (t1 <? t0 + Float.of_nat expire) = true ->
  cache_get t1 key (cache_set t0 key value expire store)
  = (Some value, cache_set t0 key value expire store).
Proof. apply cache_get_fresh. Qed.

Lemma cached_data_is_returned_until_expiry_witness :
  (1059 <? 1000 + Float.of_nat 60) = true
  /\ cache_get 1059 "k" (cache_set 1000 "k" 7%nat 60 [])
     = (Some 7%nat, cache_set 1000 "k" 7%nat 60 []).
Proof.
  assert (H : (1059 <? 1000 + Float.of_nat 60) = true) by reflexivity.
  split; [exact H |].
  apply (cached_data_is_returned_until_expiry nat 1000 1059 "k" 7%nat 60
           [] H).
Defined.

(** X8: once the clock has reached the expiry time, [cache_get] returns
    [None] and deletes the entry: the key then misses at every reading of
    the clock, also an earlier one, until it is set again. *)
Theorem expired_data_is_evicted (V : Type) (t0 t1 : float) (key : string)
    (value : V) (expire : nat) (store : cache_store V) :
  (t1 <? t0 + Float.of_nat expire) = false ->
  fst (cache_get t1 key (cache_set t0 key value expire store)) = None
  /\ forall t : float,
       fst (cache_get t key
              (snd (cache_get t1 key (cache_set t0 key value expire store))))
       = None.
Proof.
  intros H. unfold cache_set.
  assert (E : cache_get t1 key
                (dict_set key (value, t0 + Float.of_nat expire) store)
              = (None,
                 dict_del key
                   (dict_set key (value, t0 + Float.of_nat expire) store))).
  { unfold cache_get. rewrite dict_get_set_same, H. reflexivity. }
  rewrite E. split; [reflexivity |].
  intros t. cbn [snd]. rewrite fst_cache_get, dict_get_del_same.
  reflexivity.
Qed.

Lemma expired_data_is_evicted_witness :
  (1060 <? 1000 + Float.of_nat 60) = false
  /\ fst (cache_get 1060 "k" (cache_set 1000 "k" 7%nat 60 [])) = None.
Proof.
  assert (H : (1060 <? 1000 + Float.of_nat 60) = false) by reflexivity.
  split; [exact H |].
  exact (proj1 (expired_data_is_evicted nat 1000 1060 "k" 7%nat 60 [] H)).
Defined.

(** X9: the keys of the cache do not disturb each other: neither a
    [cache_set] nor a [cache_get] on one key, evicting or not, changes
    what [cache_get] returns for another key. *)
Theorem cache_keys_are_independent (V : Type) (t0 t : float)
    (key key' : string) (value : V) (expire : nat) (store : cache_store V) :
  key <> key' ->
  fst (cache_get t key' (cache_set t0 key value expire store))
  = fst (cache_get t key' store)
  /\ fst (cache_get t key' (snd (cache_get t0 key store)))
     = fst (cache_get t key' store).
Proof.
  intros N. rewrite !fst_cache_get. unfold cache_set.
  rewrite dict_get_set_other by exact N. split; [reflexivity |].
  unfold cache_get.
  destruct (dict_get key store) as [[data expiry] |]; [| reflexivity].
  destruct (t0 <? expiry); [reflexivity |]. cbn [snd].
  rewrite dict_get_del_other by exact N. reflexivity.
Qed.

Lemma cache_keys_are_independent_witness :
  "a"%string <> "b"%string
  /\ fst (cache_get 5 "b" (cache_set 0 "a" 1%nat 60 [("b"%string, (2%nat, 9))]))
     = fst (cache_get 5 "b" [("b"%string, (2%nat, 9))]).
Proof.
  assert (H : "a"%string <> "b"%string) by discriminate.
  split; [exact H |].
  exact (proj1 (cache_keys_are_independent nat 0 5 "a" "b" 1%nat 60
                  [("b"%string, (2%nat, 9))] H)).
Defined.

(** ** Of the market-data fetch *)

(** X10: when nothing is cached for a list of symbols and the upstream
    answers 200 with data that is true, the fetch returns the data and
    caches it for 60 seconds: a fetch of the same symbols before that
    time returns the same data and leaves the cache alone, whatever the
    upstream would answer then. *)
Theorem quotes_are_cached_for_a_minute (V : Type) (truthy : V -> bool)
    (now_get now_set now_get' now_set' : float) (data : V)
    (response' : option (nat * V)) (symbols : list string)
    (store : cache_store V) :
  dict_get ("cmc_data_" ++ String.concat "," symbols) store = None ->
  truthy data = true ->
  (now_get' <? now_set + 60) = true ->
  fst (fetch_coinmarketcap_data truthy now_get now_set (Some (200%nat, data))
         symbols store) = Some data
  /\ fetch_coinmarketcap_data truthy now_get' now_set' response' symbols
       (snd (fetch_coinmarketcap_data truthy now_get now_set
               (Some (200%nat, data)) symbols store))
     = (Some data,
        snd (fetch_coinmarketcap_data truthy now_get now_set
               (Some (200%nat, data)) symbols store)).
Proof.
  intros M T H.
  assert (E : fetch_coinmarketcap_data truthy now_get now_set
                (Some (200%nat, data)) symbols store
              = (Some data,
                 cache_set now_set
                   ("cmc_data_" ++ String.concat "," symbols) data 60
                   store)).
  { unfold fetch_coinmarketcap_data, cache_get. rewrite M. reflexivity. }
  rewrite E. split; [reflexivity |]. cbn [snd].
  unfold fetch_coinmarketcap_data.
  rewrite (cache_get_fresh V now_set now_get' _ data 60 store H).
  rewrite T. reflexivity.
Qed.

Lemma quotes_are_cached_for_a_minute_witness :
  dict_get ("cmc_data_" ++ String.concat "," ["ETH"; "USDC"])%string
    (@nil (string * (nat * float))) = None
  /\ Nat.ltb 0 5 = true
  /\ (1030 <? 1001 + 60) = true
  /\ fetch_coinmarketcap_data (Nat.ltb 0) 1030 1031 None
       ["ETH"; "USDC"]%string
       (snd (fetch_coinmarketcap_data (Nat.ltb 0) 1000 1001
               (Some (200%nat, 5%nat)) ["ETH"; "USDC"]%string []))
     = (Some 5%nat,
        snd (fetch_coinmarketcap_data (Nat.ltb 0) 1000 1001
               (Some (200%nat, 5%nat)) ["ETH"; "USDC"]%string [])).
Proof.
  assert (M : dict_get
                ("cmc_data_" ++ String.concat "," ["ETH"; "USDC"])%string
                (@nil (string * (nat * float))) = None) by reflexivity.
  assert (T : Nat.ltb 0 5 = true) by reflexivity.
  assert (H : (1030 <? 1001 + 60) = true) by reflexivity.
  split; [exact M |]. split; [exact T |]. split; [exact H |].
  exact (proj2 (quotes_are_cached_for_a_minute nat (Nat.ltb 0) 1000 1001
                  1030 1031 5%nat None ["ETH"; "USDC"]%string [] M T H)).
Defined.

(** X11: when the upstream does not answer 200, or the request raises,
    the fetch returns either [None] or a datum that was cached and is
    true, and it caches nothing: every entry of the cache after the call
    was there before it. *)
Theorem failed_fetch_caches_nothing (V : Type) (truthy : V -> bool)
    (now_get now_set : float) (response : option (nat * V))
    (symbols : list string) (store : cache_store V) :
  (forall data, response <> Some (200%nat, data)) ->
  (fst (fetch_coinmarketcap_data truthy now_get now_set response symbols
          store) = None
   \/ exists data expiry,
        fst (fetch_coinmarketcap_data truthy now_get now_set response
               symbols store) = Some data
        /\ truthy data = true
        /\ dict_get ("cmc_data_" ++ String.concat "," symbols) store
           = Some (data, expiry))
  /\ forall k entry,
       dict_get k
         (snd (fetch_coinmarketcap_data truthy now_get now_set response
                 symbols store)) = Some entry ->
       dict_get k store = Some entry.
Proof.
  intros F. unfold fetch_coinmarketcap_data.
  set (key := ("cmc_data_" ++ String.concat "," symbols)%string).
  assert (R : forall s : cache_store V,
            match response with
            | Some (status_code, data) =>
                if (status_code =? 200)%nat
                then (Some data, cache_set now_set key data 60 s)
                else (None, s)
            | None => (None, s)
            end = (None, s)).
  { intros s. destruct response as [[status data] |]; [| reflexivity].
    destruct (Nat.eqb_spec status 200) as [-> | N]; [| reflexivity].
    exfalso. exact (F data eq_refl). }
  unfold cache_get.
  destruct (dict_get key store) as [[data expiry] |] eqn:G.
  - destruct (now_get <? expiry) eqn:L.
    + destruct (truthy data) eqn:T.
      * split; [right; exists data, expiry; auto | auto].
      * rewrite R. split; [left; reflexivity | auto].
    + cbn iota. rewrite R. split; [left; reflexivity |].
      intros k entry. cbn [snd].
      destruct (String.eqb_spec key k) as [<- | N].
      * rewrite dict_get_del_same. discriminate.
      * rewrite dict_get_del_other by exact N. auto.
  - cbn iota. rewrite R. split; [left; reflexivity | auto].
Qed.

Lemma failed_fetch_caches_nothing_witness :
  (forall data : nat, Some (503%nat, 0%nat) <> Some (200%nat, data))
  /\ forall k entry,
       dict_get k
         (snd (fetch_coinmarketcap_data (Nat.ltb 0) 1000 1001
                 (Some (503%nat, 0%nat)) ["ETH"]%string [])) = Some entry ->
       dict_get k [] = Some entry.
Proof.
  assert (F : forall data : nat,
            Some (503%nat, 0%nat) <> Some (200%nat, data))
    by (intros data; discriminate).
  split; [exact F |].
  exact (proj2 (failed_fetch_caches_nothing nat (Nat.ltb 0) 1000 1001
                  (Some (503%nat, 0%nat)) ["ETH"]%string [] F)).
Defined.

(** ** Of the portfolio creation *)

(** X12: when the market data is fetched, quotes every holding in the
    documented shape (the name a string, the price and the 24-hour change
    floats, any of them possibly missing) and the insert succeeds, the
    created portfolio lists one token per holding of the wallet, in the
    order of the holdings, with the holding's symbol and balance and with
    the name, price and change quoted for its symbol; every token is
    valued at its balance times its price, and the total value of the
    portfolio is the sum of the token values taken in that order from
    0.0.  This holds whatever pydantic does with values that are not of
    the type of their field. *)
Theorem created_portfolio_lists_the_holdings
    (coerce_str : pyval -> sum error string)
    (coerce_float : pyval -> sum error float)
    (new_id user wallet : string) (token_balances : list Holding.t)
    (fetch_market : list string -> option pyval) (market_data : pyval) :
  fetch_market (requested_symbols token_balances) = Some market_data ->
  Forall (fun token => quoted market_data (Holding.symbol token) = true)
    token_balances ->
  exists p : StoredPortfolio,
    create_portfolio coerce_str coerce_float new_id user wallet
      token_balances fetch_market None = inr p
    /\ id (portfolio p) = new_id
    /\ user_id (portfolio p) = user
    /\ wallet_address (portfolio p) = wallet
    /\ map TokenBalance.symbol (tokens p)
       = map Holding.symbol token_balances
    /\ map TokenBalance.balance (tokens p)
       = map Holding.balance token_balances
    /\ Forall2
         (fun token t =>
            quotation market_data (Holding.symbol token)
            = Some (TokenBalance.name t, TokenBalance.price_usd t,
                    TokenBalance.change_24h t))
         token_balances (tokens p)
    /\ Forall (fun t => TokenBalance.value_usd t
                        = TokenBalance.balance t * TokenBalance.price_usd t
                        /\ TokenBalance.wallet_address t = wallet)
         (tokens p)
    /\ total_value_usd (portfolio p)
       = fold_left add (map TokenBalance.value_usd (tokens p)) 0.
Proof.
  intros F Q. eexists.
  split; [apply create_portfolio_quoted; [exact F | exact Q] |].
  cbn [portfolio tokens id user_id wallet_address total_value_usd].
  split; [reflexivity |]. split; [reflexivity |]. split; [reflexivity |].
  split; [rewrite map_map; reflexivity |].
  split; [rewrite map_map; reflexivity |].
  split; [apply quoted_tokens_quotation; exact Q |].
  split; [| reflexivity].
  apply Forall_forall. intros t Hin.
  apply in_map_iff in Hin. destruct Hin as [x [<- _]].
  split; reflexivity.
Qed.

Lemma created_portfolio_lists_the_holdings_witness :
  (fun _ : list string => Some demo_market)
    (requested_symbols demo_holdings) = Some demo_market
  /\ Forall (fun token => quoted demo_market (Holding.symbol token) = true)
       demo_holdings
  /\ exists p : StoredPortfolio,
       create_portfolio strict_str strict_float "id-1" "user-1" "0xabc"
         demo_holdings (fun _ => Some demo_market) None = inr p
       /\ total_value_usd (portfolio p) = 6500.
Proof.
  assert (F : (fun _ : list string => Some demo_market)
                (requested_symbols demo_holdings) = Some demo_market)
    by reflexivity.
  assert (Q : Forall (fun token =>
                        quoted demo_market (Holding.symbol token) = true)
                demo_holdings)
    by (repeat constructor).
  split; [exact F |]. split; [exact Q |].
  destruct (created_portfolio_lists_the_holdings strict_str strict_float
              "id-1" "user-1" "0xabc" demo_holdings
              (fun _ => Some demo_market) demo_market F Q)
    as [p [E _]].
  exists p. split; [exact E |].
  vm_compute in E. injection E as <-. reflexivity.
Defined.

(** X13: every portfolio [create_portfolio] returns has a risk score
    between 0 and 100, whatever the market data holds as 24-hour changes
    (NaN and the infinities included) and whatever pydantic makes of them,
    and a risk score of 50 when the wallet has no holdings. *)
Theorem created_risk_score_is_a_percentage
    (coerce_str : pyval -> sum error string)
    (coerce_float : pyval -> sum error float)
    (new_id user wallet : string) (token_balances : list Holding.t)
    (fetch_market : list string -> option pyval)
    (insert_error : option error) (p : StoredPortfolio) :
  create_portfolio coerce_str coerce_float new_id user wallet token_balances
    fetch_market insert_error = inr p ->
  (0 <=? risk_score p) = true
  /\ (risk_score p <=? 100) = true
  /\ (token_balances = [] -> risk_score p = 50).
Proof.
  intros E.
  destruct (create_portfolio_returns _ _ _ _ _ _ _ _ _ E)
    as [_ [total [V R]]].
  rewrite R.
  destruct (basic_risk_score_bounds (tokens p)) as [L U].
  split; [exact L |]. split; [exact U |].
  intros ->. cbn in V. injection V as <- _. reflexivity.
Qed.

Lemma created_risk_score_is_a_percentage_witness :
  exists p : StoredPortfolio,
    create_portfolio strict_str strict_float "id-1" "user-1" "0xabc"
      demo_holdings (fun _ => Some demo_market) None = inr p
    /\ (0 <=? risk_score p) = true
    /\ (risk_score p <=? 100) = true.
Proof.
  destruct (create_portfolio strict_str strict_float "id-1" "user-1" "0xabc"
              demo_holdings (fun _ => Some demo_market) None)
    as [e | p] eqn:E.
  - vm_compute in E. discriminate.
  - exists p. split; [reflexivity |].
    destruct (created_risk_score_is_a_percentage strict_str strict_float
                "id-1" "user-1" "0xabc" demo_holdings
                (fun _ => Some demo_market) None p E) as [L [U _]].
    split; [exact L | exact U].
Defined.

(** X14: when the market data is fetched and quotes every holding in the
    documented shape, a holding whose symbol the market data has no entry
    for is kept in the created portfolio, under its symbol as name, with
    price 0.0 and change 0.0; when its balance is positive and finite its
    value is 0.0. *)
Theorem unlisted_holdings_are_valued_at_zero
    (coerce_str : pyval -> sum error string)
    (coerce_float : pyval -> sum error float)
    (new_id user wallet : string) (token_balances : list Holding.t)
    (fetch_market : list string -> option pyval) (market_data : pyval) :
  fetch_market (requested_symbols token_balances) = Some market_data ->
  Forall (fun token => quoted market_data (Holding.symbol token) = true)
    token_balances ->
  exists p : StoredPortfolio,
    create_portfolio coerce_str coerce_float new_id user wallet
      token_balances fetch_market None = inr p
    /\ length (tokens p) = length token_balances
    /\ forall t, In t (tokens p) ->
         unlisted market_data (TokenBalance.symbol t) = true ->
         TokenBalance.name t = TokenBalance.symbol t
         /\ TokenBalance.price_usd t = 0
         /\ TokenBalance.change_24h t = 0
         /\ ((0 <? TokenBalance.balance t) = true ->
             Float.finite (TokenBalance.balance t) = true ->
             TokenBalance.value_usd t = 0).
Proof.
  intros F Q. eexists.
  split; [apply create_portfolio_quoted; [exact F | exact Q] |].
  cbn [tokens]. split; [apply length_map |].
  intros t Hin. apply in_map_iff in Hin. destruct Hin as [x [<- _]].
  change (TokenBalance.symbol (quoted_token market_data wallet x))
    with (Holding.symbol x).
  change (TokenBalance.balance (quoted_token market_data wallet x))
    with (Holding.balance x).
  apply quoted_token_unlisted.
Qed.

Lemma unlisted_holdings_are_valued_at_zero_witness :
  (fun _ : list string => Some demo_market)
    (requested_symbols demo_holdings) = Some demo_market
  /\ Forall (fun token => quoted demo_market (Holding.symbol token) = true)
       demo_holdings
  /\ exists p : StoredPortfolio,
       create_portfolio strict_str strict_float "id-1" "user-1" "0xabc"
         demo_holdings (fun _ => Some demo_market) None = inr p
       /\ length (tokens p) = length demo_holdings.
Proof.
  assert (F : (fun _ : list string => Some demo_market)
                (requested_symbols demo_holdings) = Some demo_market)
    by reflexivity.
  assert (Q : Forall (fun token =>
                        quoted demo_market (Holding.symbol token) = true)
                demo_holdings)
    by (repeat constructor).
  split; [exact F |]. split; [exact Q |].
  destruct (unlisted_holdings_are_valued_at_zero strict_str strict_float
              "id-1" "user-1" "0xabc" demo_holdings
              (fun _ => Some demo_market) demo_market F Q)
    as [p [E [L _]]].
  exists p. split; [exact E | exact L].
Defined.

(** X15: [create_portfolio] raises nothing but an HTTP error 500.  It
    returns a portfolio only when the insert succeeded and the market
    data was fetched (or the wallet has no holding); a failed fetch with
    at least one holding, and a failed insert, raise the 500. *)
Theorem creation_fails_with_500_only
    (coerce_str : pyval -> sum error string)
    (coerce_float : pyval -> sum error float)
    (new_id user wallet : string) (token_balances : list Holding.t)
    (fetch_market : list string -> option pyval)
    (insert_error : option error) :
  match create_portfolio coerce_str coerce_float new_id user wallet
          token_balances fetch_market insert_error with
  | inr p =>
      insert_error = None
      /\ (token_balances = []
          \/ fetch_market (requested_symbols token_balances) <> None)
  | inl e => e = HTTPException 500
  end
  /\ (fetch_market (requested_symbols token_balances) = None ->
      token_balances <> [] ->
      create_portfolio coerce_str coerce_float new_id user wallet
        token_balances fetch_market insert_error = inl (HTTPException 500))
  /\ (insert_error <> None ->
      create_portfolio coerce_str coerce_float new_id user wallet
        token_balances fetch_market insert_error = inl (HTTPException 500)).
Proof.
  assert (Unfetched :
            fetch_market (requested_symbols token_balances) = None ->
            token_balances <> [] ->
            forall p,
              create_portfolio coerce_str coerce_float new_id user wallet
                token_balances fetch_market insert_error <> inr p).
  { intros F N p E.
    destruct (create_portfolio_returns _ _ _ _ _ _ _ _ _ E)
      as [_ [total [V _]]].
    rewrite F, value_tokens_unfetched in V by exact N. discriminate. }
  destruct (create_portfolio coerce_str coerce_float new_id user wallet
              token_balances fetch_market insert_error) as [e | p] eqn:E.
  - pose proof (create_portfolio_raises_500 _ _ _ _ _ _ _ _ _ E) as ->.
    repeat split; reflexivity.
  - destruct (create_portfolio_returns _ _ _ _ _ _ _ _ _ E) as [I _].
    split; [split; [exact I |] |].
    + destruct token_balances as [| t rest]; [left; reflexivity |].
      right. intros F. apply (Unfetched F ltac:(discriminate) p).
      reflexivity.
    + split.
      * intros F N. exfalso. apply (Unfetched F N p). reflexivity.
      * intros N. contradiction.
Qed.

(** X16: the market data is never asked for an empty list of symbols:
    the symbols requested are those of the holdings with a positive
    balance, in the order of the holdings, and the single symbol BTC
    when no balance is positive. *)
Theorem requested_symbols_are_never_empty (token_balances : list Holding.t) :
  requested_symbols token_balances <> []
  /\ (forall token, In token token_balances ->
        (0 <? Holding.balance token) = true ->
        In (Holding.symbol token) (requested_symbols token_balances))
  /\ (forall s, In s (requested_symbols token_balances) ->
        (s = "BTC"%string
         /\ Forall (fun token => (0 <? Holding.balance token) = false)
              token_balances)
        \/ exists token, In token token_balances
             /\ Holding.symbol token = s
             /\ (0 <? Holding.balance token) = true).
Proof.
  unfold requested_symbols.
  set (held := filter (fun token => 0 <? Holding.balance token)
                 token_balances).
  assert (Hheld : forall token, In token held <->
            In token token_balances /\ (0 <? Holding.balance token) = true)
    by (intros token; apply filter_In).
  destruct (map Holding.symbol held) as [| s0 l] eqn:E.
  - assert (Hnil : held = []) by (destruct held; [reflexivity | discriminate]).
    split; [discriminate |]. split.
    + intros token Hin P.
      assert (In token held) by (apply Hheld; split; assumption).
      rewrite Hnil in H. contradiction.
    + intros s [<- | []]. left. split; [reflexivity |].
      apply Forall_forall. intros token Hin.
      destruct (0 <? Holding.balance token) eqn:P; [| reflexivity].
      assert (In token held) by (apply Hheld; split; assumption).
      rewrite Hnil in H. contradiction.
  - rewrite <- E. split; [rewrite E; discriminate |]. split.
    + intros token Hin P. apply in_map. apply Hheld. split; assumption.
    + intros s Hin. right. apply in_map_iff in Hin.
      destruct Hin as [token [Hs Hin]]. apply Hheld in Hin.
      exists token. tauto.
Qed.

(** X25: one holding whose price in the market data is no number
    (JSON's [null], text, a list or a dict under the key [price]) fails
    the whole creation with an HTTP error 500, whatever the other
    holdings and their quotes are: the product of the balance and the
    price raises, and the handler of the endpoint turns the exception into
    the 500. *)
Theorem creation_fails_on_a_price_that_is_no_number
    (coerce_str : pyval -> sum error string)
    (coerce_float : pyval -> sum error float)
    (new_id user wallet : string) (token_balances : list Holding.t)
    (fetch_market : list string -> option pyval)
    (insert_error : option error) (market_data : pyval)
    (token : Holding.t) (price : pyval) :
  fetch_market (requested_symbols token_balances) = Some market_data ->
  In token token_balances ->
  stored_price market_data (Holding.symbol token) = Some price ->
  not_a_factor price = true ->
  create_portfolio coerce_str coerce_float new_id user wallet token_balances
    fetch_market insert_error = inl (HTTPException 500).
Proof.
  intros F Hin P N.
  pose proof (token_of_not_a_factor coerce_str coerce_float market_data
                wallet token price P N) as T.
  destruct (value_tokens_fails coerce_str coerce_float market_data wallet
              token_balances token TypeError [] 0 Hin T) as [e V].
  unfold create_portfolio. rewrite F, V. reflexivity.
Qed.

Lemma creation_fails_on_a_price_that_is_no_number_witness :
  (fun _ : list string => Some null_price_market)
    (requested_symbols demo_holdings) = Some null_price_market
  /\ stored_price null_price_market "ETH" = Some PyNone
  /\ create_portfolio strict_str strict_float "id-1" "user-1" "0xabc"
       demo_holdings (fun _ => Some null_price_market) None
     = inl (HTTPException 500).
Proof.
  assert (F : (fun _ : list string => Some null_price_market)
                (requested_symbols demo_holdings) = Some null_price_market)
    by reflexivity.
  assert (P : stored_price null_price_market "ETH" = Some PyNone)
    by reflexivity.
  split; [exact F |]. split; [exact P |].
  apply (creation_fails_on_a_price_that_is_no_number strict_str strict_float
           "id-1" "user-1" "0xabc" demo_holdings
           (fun _ => Some null_price_market) None null_price_market
           {| Holding.symbol := "ETH"; Holding.balance := 2.5;
              Holding.address :=
                "0x0000000000000000000000000000000000000000" |}
           PyNone F).
  - left. reflexivity.
  - exact P.
  - reflexivity.
Defined.

(** ** Of the stored-portfolio endpoints *)

(** X17: the 404 that [get_portfolio] and [analyze_portfolio_risk] raise
    for a portfolio that is not found never reaches the caller: it is
    raised inside the try block, whose handler turns every exception into
    a 500.  Unless the portfolio is found, both endpoints raise the 500;
    when it is, [get_portfolio] returns it. *)
Theorem missing_portfolio_is_a_500 (pad : bool) (sk ku : list float -> float)
    (found : sum error (option StoredPortfolio)) (time_period : Z)
    (now : nat -> datetime.t) (draw : nat -> float)
    (insert_error : option error) :
  ((forall d, found <> inr (Some d)) ->
   get_portfolio found = inl (HTTPException 500)
   /\ analyze_portfolio_risk pad sk ku found time_period now draw
        insert_error
      = inl (HTTPException 500))
  /\ (forall d, found = inr (Some d) -> get_portfolio found = inr d).
Proof.
  split.
  - intros N. unfold get_portfolio, analyze_portfolio_risk.
    destruct found as [e | [d |]]; [| exfalso; exact (N d eq_refl) |];
      split; reflexivity.
  - intros d ->. reflexivity.
Qed.

(** X18: with a stored portfolio and a working store the risk analysis
    returns a record, for the portfolio analysed and with finite fields
    only, whatever the random draws are, as long as every simulated date
    exists: row [i] of the history is dated [i] days before the day the
    clock reads, which has to be a day of year 1 or later.  That is so for
    every period of at most 719163 days, the days from year 1 to the epoch
    of the clock.  For a period that reaches a row whose date would fall
    before year 1 the subtraction of the days raises and the endpoint
    answers with an HTTP error 500. *)
Theorem risk_analysis_answers_while_dates_exist (pad : bool)
    (sk ku : list float -> float) (doc : StoredPortfolio) (time_period : Z)
    (now : nat -> datetime.t) (draw : nat -> float) :
  ((forall i : nat, (i < Z.to_nat time_period)%nat ->
      (Z.of_nat i < datetime.toordinal (now i))%Z) ->
   exists m : RiskMetrics,
     analyze_portfolio_risk pad sk ku (inr (Some doc)) time_period now draw
       None = inr m
     /\ portfolio_id m = id (portfolio doc)
     /\ all_finite m = true)
  /\ ((time_period <= datetime.EPOCH)%Z ->
      exists m : RiskMetrics,
        analyze_portfolio_risk pad sk ku (inr (Some doc)) time_period now
          draw None = inr m
        /\ portfolio_id m = id (portfolio doc)
        /\ all_finite m = true)
  /\ ((exists i : nat, (i < Z.to_nat time_period)%nat
         /\ (datetime.toordinal (now i) <= Z.of_nat i)%Z) ->
      forall insert_error : option error,
        analyze_portfolio_risk pad sk ku (inr (Some doc)) time_period now
          draw insert_error = inl (HTTPException 500)).
Proof.
  assert (Answers :
            (forall i : nat, (i < Z.to_nat time_period)%nat ->
               (Z.of_nat i < datetime.toordinal (now i))%Z) ->
            exists m : RiskMetrics,
              analyze_portfolio_risk pad sk ku (inr (Some doc)) time_period
                now draw None = inr m
              /\ portfolio_id m = id (portfolio doc)
              /\ all_finite m = true).
  { intros R.
    destruct (simulate_history_dated now draw
                (total_value_usd (portfolio doc)) 0 (Z.to_nat time_period))
      as [h [E _]].
    { intros k Hk. apply R. lia. }
    unfold analyze_portfolio_risk.
    cbn [bind ret catch Monad_either Exception_either]. rewrite E.
    eexists. split; [reflexivity |].
    destruct (calculate_all_finite pad sk ku (portfolio doc) h) as [F I].
    split; [exact I | exact F]. }
  split; [exact Answers |]. split.
  - intros H. apply Answers. apply epoch_rows_in_range.
    unfold datetime.EPOCH in *. lia.
  - intros [i [Hi O]] insert_error.
    destruct (simulate_history_overflow now draw
                (total_value_usd (portfolio doc)) 0 (Z.to_nat time_period))
      as [e E].
    { exists i. split; [lia | exact O]. }
    unfold analyze_portfolio_risk.
    cbn [bind ret catch Monad_either Exception_either]. rewrite E.
    reflexivity.
Qed.

Lemma risk_analysis_answers_while_dates_exist_witness :
  (30 <= datetime.EPOCH)%Z
  /\ exists m : RiskMetrics,
       analyze_portfolio_risk true unspecified_estimator
         unspecified_estimator (inr (Some (stored_worth 1010))) 30 today
         alternating_draws None = inr m
       /\ portfolio_id m = id (portfolio (stored_worth 1010))
       /\ all_finite m = true.
Proof.
  assert (H : (30 <= datetime.EPOCH)%Z) by (unfold datetime.EPOCH; lia).
  split; [exact H |].
  exact (proj1 (proj2 (risk_analysis_answers_while_dates_exist true
                         unspecified_estimator unspecified_estimator
                         (stored_worth 1010) 30 today alternating_draws))
           H).
Defined.

(** X19: a risk analysis over a period of two days or less, zero and
    negative periods included, returns the all-zero record: the
    simulated history is too short for two returns. *)
Theorem short_period_gives_zero_record (pad : bool)
    (sk ku : list float -> float) (doc : StoredPortfolio) (time_period : Z)
    (now : nat -> datetime.t) (draw : nat -> float) :
  (time_period <= 2)%Z ->
  exists m : RiskMetrics,
    analyze_portfolio_risk pad sk ku (inr (Some doc)) time_period now draw
      None = inr m
    /\ all_zero m.
Proof.
  intros H.
  destruct (simulate_history_dated now draw
              (total_value_usd (portfolio doc)) 0 (Z.to_nat time_period))
    as [h [E [L _]]].
  { intros k Hk.
    apply (epoch_rows_in_range now (Z.to_nat time_period));
      [unfold datetime.EPOCH | ]; lia. }
  unfold analyze_portfolio_risk.
  cbn [bind ret catch Monad_either Exception_either]. rewrite E.
  eexists. split; [reflexivity |].
  apply calculate_without_returns.
  pose proof (return_series_length pad h) as R. lia.
Qed.

Lemma short_period_gives_zero_record_witness :
  (2 <= 2)%Z
  /\ exists m : RiskMetrics,
       analyze_portfolio_risk true unspecified_estimator
         unspecified_estimator (inr (Some (stored_worth 1010))) 2 today
         alternating_draws None = inr m
       /\ all_zero m.
Proof.
  assert (H : (2 <= 2)%Z) by lia.
  split; [exact H |].
  apply (short_period_gives_zero_record true unspecified_estimator
           unspecified_estimator (stored_worth 1010) 2 today
           alternating_draws H).
Defined.

(** X20: the risk analysis of a portfolio whose total value is zero
    returns the all-zero record for every period all of whose simulated
    dates exist (row [i] lies [i] days before the day the clock reads, in
    year 1 or later), as long as one plus each draw is finite: every
    simulated valuation is zero, so every return is NaN and removed. *)
Theorem worthless_portfolio_gives_zero_record (pad : bool)
    (sk ku : list float -> float) (doc : StoredPortfolio) (time_period : Z)
    (now : nat -> datetime.t) (draw : nat -> float) :
  (total_value_usd (portfolio doc) =? 0) = true ->
  (forall k, Float.finite (1 + draw k) = true) ->
  (forall i : nat, (i < Z.to_nat time_period)%nat ->
     (Z.of_nat i < datetime.toordinal (now i))%Z) ->
  exists m : RiskMetrics,
    analyze_portfolio_risk pad sk ku (inr (Some doc)) time_period now draw
      None = inr m
    /\ all_zero m.
Proof.
  intros Z F R.
  destruct (simulate_history_dated now draw
              (total_value_usd (portfolio doc)) 0 (Z.to_nat time_period))
    as [h [E [_ Zh]]].
  { intros k Hk. apply R. lia. }
  unfold analyze_portfolio_risk.
  cbn [bind ret catch Monad_either Exception_either]. rewrite E.
  eexists. split; [reflexivity |].
  apply calculate_without_returns.
  rewrite return_series_of_zeros; [simpl; lia |].
  exact (Zh Z F).
Qed.

Lemma worthless_portfolio_gives_zero_record_witness :
  (total_value_usd (portfolio (stored_worth 0)) =? 0) = true
  /\ (forall k, Float.finite (1 + alternating_draws k) = true)
  /\ (forall i : nat, (i < Z.to_nat 30)%nat ->
        (Z.of_nat i < datetime.toordinal (today i))%Z)
  /\ exists m : RiskMetrics,
       analyze_portfolio_risk true unspecified_estimator
         unspecified_estimator (inr (Some (stored_worth 0))) 30 today
         alternating_draws None = inr m
       /\ all_zero m.
Proof.
  assert (Z : (total_value_usd (portfolio (stored_worth 0)) =? 0) = true)
    by reflexivity.
  assert (F : forall k, Float.finite (1 + alternating_draws k) = true).
  { intros k. unfold alternating_draws. destruct (Nat.even k); reflexivity. }
  assert (R : forall i : nat, (i < Z.to_nat 30)%nat ->
                (Z.of_nat i < datetime.toordinal (today i))%Z).
  { intros i Hi. cbn [today datetime.toordinal].
    change (Z.to_nat 30) with 30%nat in Hi. lia. }
  split; [exact Z |]. split; [exact F |]. split; [exact R |].
  apply (worthless_portfolio_gives_zero_record true unspecified_estimator
           unspecified_estimator (stored_worth 0) 30 today alternating_draws
           Z F R).
Defined.

(** ** Of the dashboard *)



(** X22: one portfolio document whose total_value_usd or risk_score is
    text, a date or a dict fails the whole dashboard with an HTTP error
    500, as does an exception of a query: [safe_float] raises on such a
    value and the handler of the endpoint turns every exception into the
    500. *)
Theorem dashboard_fails_on_a_field_that_is_no_number
    (sfl : list pyval -> float -> sum error float) (q : Queries.t)
    (entries : list (string * pyval)) (key : string) (v : pyval) :
  In (PyDict entries) (Queries.portfolios q) ->
  key = "total_value_usd"%string \/ key = "risk_score"%string ->
  assoc key entries = Some v ->
  not_a_number v = true ->
  get_dashboard_data sfl (inr q) = inl (HTTPException 500)
  /\ forall e, get_dashboard_data sfl (inl e) = inl (HTTPException 500).
Proof.
  intros Hin K A N. split; [| reflexivity].
  destruct (document_numbers_not_a_number sfl entries key v K A N)
    as [e E].
  destruct (sum_portfolios_fails sfl (Queries.portfolios q) _ e 0 0 Hin E)
    as [e' E'].
  unfold get_dashboard_data. cbn [bind ret catch Monad_either Exception_either].
  rewrite E'. reflexivity.
Qed.

Lemma dashboard_fails_on_a_field_that_is_no_number_witness :
  In (PyDict [("risk_score"%string, PyStr "high")])
    [PyDict [("risk_score"%string, PyStr "high")]]
  /\ get_dashboard_data (fun _ _ => inl NotANumber)
       (inr {| Queries.portfolios :=
                 [PyDict [("risk_score"%string, PyStr "high")]];
               Queries.risk_metrics := [];
               Queries.sentiment_data := [];
               Queries.yield_opportunities := [];
               Queries.alerts := [] |}) = inl (HTTPException 500).
Proof.
  assert (H : In (PyDict [("risk_score"%string, PyStr "high")])
                [PyDict [("risk_score"%string, PyStr "high")]])
    by (left; reflexivity).
  split; [exact H |].
  exact (proj1 (dashboard_fails_on_a_field_that_is_no_number
                  (fun _ _ => inl NotANumber)
                  {| Queries.portfolios :=
                       [PyDict [("risk_score"%string, PyStr "high")]];
                     Queries.risk_metrics := [];
                     Queries.sentiment_data := [];
                     Queries.yield_opportunities := [];
                     Queries.alerts := [] |}
                  [("risk_score"%string, PyStr "high")] "risk_score"
                  (PyStr "high") H (or_intror eq_refl) eq_refl eq_refl)).
Defined.

(** ** Of the monitoring pass *)

(** X23: a pass of the monitor keeps the alerts there are, in their
    order, and appends exactly one alert for each valid portfolio whose
    risk score is above 80 and whose insert succeeds, in the order of the
    portfolios, and nothing else: the alerts added are the images, one for
    one, of those portfolios.  A document the model rejects or an insert
    that raises stops nothing.  Every alert added is an unresolved
    HIGH_RISK alert of severity high.  The pass does not look at the
    alerts there are: run again on the same portfolios it adds the same
    alerts again. *)
Theorem monitor_pass_adds_high_risk_alerts (format_1f : float -> string)
    (portfolios : list (sum error StoredPortfolio))
    (insert_error : Alert.t -> bool) (alerts : list Alert.t) :
  exists added : list Alert.t,
    added
    = map (high_risk_alert format_1f)
        (filter (fun stored =>
                   (80 <? risk_score stored)
                   && negb (insert_error (high_risk_alert format_1f stored)))
           (valid_documents portfolios))
    /\ monitor_pass format_1f portfolios insert_error alerts = alerts ++ added
    /\ (forall stored, In stored (valid_documents portfolios) <->
          In (inr stored) portfolios)
    /\ (forall a, In a added <->
          exists stored, In (inr stored) portfolios
            /\ (80 <? risk_score stored) = true
            /\ insert_error (high_risk_alert format_1f stored) = false
            /\ a = high_risk_alert format_1f stored)
    /\ Forall (fun a => Alert.alert_type a = "HIGH_RISK"%string
                        /\ Alert.severity a = "high"%string
                        /\ Alert.resolved a = false)
         added
    /\ monitor_pass format_1f portfolios insert_error (alerts ++ added)
       = (alerts ++ added) ++ added.
Proof.
  exists (new_alerts format_1f portfolios insert_error).
  split; [apply new_alerts_filter |].
  split; [apply monitor_pass_appends |].
  split.
  { intros stored. unfold valid_documents. rewrite in_flat_map. split.
    - intros [[e | stored'] [Hin Hs]]; [contradiction |].
      destruct Hs as [<- | []]. exact Hin.
    - intros Hin. exists (inr stored). split; [exact Hin |].
      left. reflexivity. }
  assert (Char : forall a,
            In a (new_alerts format_1f portfolios insert_error) <->
            exists stored, In (inr stored) portfolios
              /\ (80 <? risk_score stored) = true
              /\ insert_error (high_risk_alert format_1f stored) = false
              /\ a = high_risk_alert format_1f stored).
  { intros a. unfold new_alerts. rewrite in_flat_map. split.
    - intros [[e | stored] [Hin Ha]]; [contradiction |].
      destruct (80 <? risk_score stored) eqn:R; [| contradiction].
      destruct (insert_error (high_risk_alert format_1f stored)) eqn:I;
        [contradiction |].
      destruct Ha as [<- | []]. exists stored. auto.
    - intros [stored [Hin [R [I ->]]]]. exists (inr stored).
      split; [exact Hin |]. rewrite R, I. left. reflexivity. }
  split; [exact Char |]. split.
  - apply Forall_forall. intros a Ha. apply Char in Ha.
    destruct Ha as [stored [_ [_ [_ ->]]]]. repeat split.
  - apply monitor_pass_appends.
Qed.

(** ** Of creation and analysis together *)

(** X24: a wallet for none of whose holdings the market data has an
    entry, each held with a positive finite balance, yields a portfolio
    worth exactly 0.0, and the risk analysis of that portfolio is the
    all-zero record for every period all of whose simulated dates exist
    (row [i] lies [i] days before the day the clock reads, in year 1 or
    later), as long as one plus each draw is finite. *)
Theorem unlisted_wallet_is_worthless (pad : bool)
    (sk ku : list float -> float)
    (coerce_str : pyval -> sum error string)
    (coerce_float : pyval -> sum error float)
    (new_id user wallet : string) (token_balances : list Holding.t)
    (fetch_market : list string -> option pyval) (market_data : pyval)
    (time_period : Z) (now : nat -> datetime.t) (draw : nat -> float) :
  fetch_market (requested_symbols token_balances) = Some market_data ->
  Forall (fun token =>
            unlisted market_data (Holding.symbol token) = true
            /\ (0 <? Holding.balance token) = true
            /\ Float.finite (Holding.balance token) = true)
    token_balances ->
  (forall k, Float.finite (1 + draw k) = true) ->
  (forall i : nat, (i < Z.to_nat time_period)%nat ->
     (Z.of_nat i < datetime.toordinal (now i))%Z) ->
  exists p : StoredPortfolio,
    create_portfolio coerce_str coerce_float new_id user wallet
      token_balances fetch_market None = inr p
    /\ total_value_usd (portfolio p) = 0
    /\ exists m : RiskMetrics,
         analyze_portfolio_risk pad sk ku (inr (Some p)) time_period now
           draw None = inr m
         /\ all_zero m.
Proof.
  intros F U D R.
  assert (Q : Forall (fun token =>
                        quoted market_data (Holding.symbol token) = true)
                token_balances).
  { eapply Forall_impl; [| exact U]. intros x [L _].
    unfold quoted. rewrite (quotation_unlisted _ _ L). reflexivity. }
  eexists.
  split; [apply create_portfolio_quoted; [exact F | exact Q] |].
  cbn [portfolio total_value_usd].
  assert (T : fold_left add
                (map TokenBalance.value_usd
                   (map (quoted_token market_data wallet) token_balances))
                0 = 0).
  { apply sum_of_zeros. rewrite map_map. apply Forall_map.
    eapply Forall_impl; [| exact U].
    intros x [L [P Fin]].
    apply (quoted_token_unlisted market_data wallet x L); assumption. }
  split; [exact T |].
  destruct (simulate_history_dated now draw 0 0 (Z.to_nat time_period))
    as [h [E [_ Zh]]].
  { intros k Hk. apply R. lia. }
  unfold analyze_portfolio_risk.
  cbn [bind ret catch Monad_either Exception_either portfolio
       total_value_usd].
  rewrite T, E.
  eexists. split; [reflexivity |].
  apply calculate_without_returns.
  rewrite return_series_of_zeros; [simpl; lia |].
  apply Zh; [reflexivity | exact D].
Qed.

Lemma unlisted_wallet_is_worthless_witness :
  (fun _ : list string => Some empty_market)
    (requested_symbols demo_holdings) = Some empty_market
  /\ Forall (fun token =>
               unlisted empty_market (Holding.symbol token) = true
               /\ (0 <? Holding.balance token) = true
               /\ Float.finite (Holding.balance token) = true)
       demo_holdings
  /\ exists p : StoredPortfolio,
       create_portfolio strict_str strict_float "id-1" "user-1" "0xabc"
         demo_holdings (fun _ => Some empty_market) None = inr p
       /\ total_value_usd (portfolio p) = 0.
Proof.
  assert (F : (fun _ : list string => Some empty_market)
                (requested_symbols demo_holdings) = Some empty_market)
    by reflexivity.
  assert (U : Forall (fun token =>
                unlisted empty_market (Holding.symbol token) = true
                /\ (0 <? Holding.balance token) = true
                /\ Float.finite (Holding.balance token) = true)
              demo_holdings)
    by (repeat constructor).
  assert (D : forall k, Float.finite (1 + alternating_draws k) = true).
  { intros k. unfold alternating_draws. destruct (Nat.even k); reflexivity. }
  assert (R : forall i : nat, (i < Z.to_nat 30)%nat ->
                (Z.of_nat i < datetime.toordinal (today i))%Z).
  { intros i Hi. cbn [today datetime.toordinal].
    change (Z.to_nat 30) with 30%nat in Hi. lia. }
  split; [exact F |]. split; [exact U |].
  destruct (unlisted_wallet_is_worthless true unspecified_estimator
              unspecified_estimator strict_str strict_float "id-1" "user-1"
              "0xabc" demo_holdings (fun _ => Some empty_market)
              empty_market 30 today alternating_draws F U D R)
    as [p [E [T _]]].
  exists p. split; [exact E | exact T].
Defined.
